(** * usof-frontend: the list view, the password form and the admin gate

    A shallow embedding of three React components of the front end:

    - [UserPosts]          (src/components/Profile/UserPosts.tsx),
    - [ChangePasswordPage] (src/components/Profile/ChangePasswordPage.tsx),
    - [AdminDashboard]     (src/components/Admin/AdminDashboard.tsx).

    A component is modelled by the record of its [useState] cells.  A handler
    is a computation in a small state-and-log monad: the state is the live
    content of the cells, the log is the sequence of calls that leave the
    component (HTTP requests, logout, timers).  A handler reads the cells
    through the closure of the render that created it, which is passed as an
    explicit argument [c]; functional updates ([setX(prev => ...)]) act on the
    live state.  The result of an awaited call is an input of the handler.

    Numbers are JavaScript numbers holding integers; they are modelled by [Z],
    so the rounding of doubles beyond 2^53 is outside the model.  The one
    place where a quotient is taken ([Math.ceil] of a division) keeps the
    non-finite results of a division by zero. *)

From Stdlib Require Import ZArith List String Bool Lia DecimalString.
Import ListNotations.
Open Scope string_scope.
Open Scope Z_scope.
Open Scope list_scope.

Set Implicit Arguments.

(** ** A state-and-log monad for event handlers *)

Section HandlerMonad.
Variables St Ev : Type.

Record World := mkWorld { view : St; net : list Ev }.

Definition M (A : Type) : Type := World -> A * World.

Definition ret {A} (a : A) : M A := fun w => (a, w).

Definition bind {A B} (m : M A) (k : A -> M B) : M B :=
  fun w => let (a, w') := m w in k a w'.

(** [setX(f)] on a [useState] cell, lifted to the whole record. *)
Definition modify (f : St -> St) : M unit :=
  fun w => (tt, mkWorld (f (view w)) (net w)).

(** A call that leaves the component. *)
Definition emit (e : Ev) : M unit :=
  fun w => (tt, mkWorld (view w) (net w ++ [e])).

Definition exec {A} (m : M A) (w : World) : World := snd (m w).
End HandlerMonad.

Arguments ret {St Ev A} a.
Arguments bind {St Ev A B} m k.
Arguments modify {St Ev} f.
Arguments emit {St Ev} e.
Arguments exec {St Ev A} m w.
Arguments mkWorld {St Ev} view net.
Arguments view {St Ev} w.
Arguments net {St Ev} w.

Declare Scope handler_scope.
Delimit Scope handler_scope with handler.
Notation "m1 ;; m2" := (bind m1 (fun _ => m2))
  (at level 61, right associativity) : handler_scope.
Notation "x <- m1 ;; m2" := (bind m1 (fun x => m2))
  (at level 61, m1 at next level, right associativity) : handler_scope.

(** ** JavaScript values used by the components *)

Module Js.

(** [n.toString()] for an integer-valued number. *)
Definition toString (z : Z) : string := NilZero.string_of_int (Z.to_int z).

(** Truthiness of a string: only the empty string is falsy. *)
Definition truthy (s : string) : bool := negb (s =? "")%string.

(** [x || fallback] where [x] is a string or undefined. *)
Definition or_else (x : option string) (fallback : string) : string :=
  match x with
  | Some s => if truthy s then s else fallback
  | None => fallback
  end.

(** [ids.join(',')] on an array of numbers. *)
Definition join (ids : list Z) : string := String.concat "," (map toString ids).

(** The result of [Math.ceil(a / b)] on integers: a division by zero gives
    an infinity or NaN, which [Math.ceil] returns unchanged. *)
Inductive num := Fin (z : Z) | PosInf | NegInf | NaN.

Definition ceil_div (a b : Z) : num :=
  if b =? 0 then
    (if 0 <? a then PosInf else if a <? 0 then NegInf else NaN)
  else Fin (- ((- a) / b)).

(** [x > y]; every comparison with NaN is false. *)
Definition gt (x y : num) : bool :=
  match x, y with
  | NaN, _ | _, NaN => false
  | Fin a, Fin b => b <? a
  | PosInf, PosInf => false
  | PosInf, _ => true
  | _, PosInf => false
  | NegInf, _ => false
  | Fin _, NegInf => true
  end.

(** What is caught by a [catch] around an axios call.  [responseError] is
    [error.response?.data?.error]: absent when the request got no response,
    the response no body, or the body no [error] field. *)
Inductive Thrown :=
| AxiosError (responseError : option string)
| OtherError.

Definition isAxiosError (e : Thrown) : bool :=
  match e with AxiosError _ => true | OtherError => false end.

Definition responseError (e : Thrown) : option string :=
  match e with AxiosError r => r | OtherError => None end.

End Js.

(** ** UserPosts *)

Module UserPosts.

Record DateInterval := mkDateInterval { startDate : string; endDate : string }.

Record FilterState := mkFilterState {
  dateInterval : option DateInterval;
  searchQuery : option string;
  categoryIds : option (list Z)
}.

(** [Partial<FilterState>]: a key may be absent ([None]), or present with a
    value that may itself be undefined ([Some None]). *)
Record PartialFilterState := mkPartial {
  p_dateInterval : option (option DateInterval);
  p_searchQuery : option (option string);
  p_categoryIds : option (option (list Z))
}.

Record ErrorDetails := mkError {
  message : string;
  details : option string;
  code : option string
}.

Record Pagination := mkPagination {
  currentPage : Z;
  totalPages : Z;
  totalItems : Z;
  itemsPerPage : Z
}.

Inductive Request :=
| Get (url : string) (params : list (string * string))
| Delete (url : string).

Section Component.
(** The post model, the translation function of [useTranslation] and
    [config.backendUrl] come from outside the component. *)
Variable Post : Type.
Variable t : string -> string.
Variable backendUrl : string.

(** The [useState] cells.  [filtersRef] is the identity of the object held
    in [filters]: [useEffect] compares that dependency by reference. *)
Record View := mkView {
  posts : list Post;
  isLoading : bool;
  showErrorModal : bool;
  errorDetails : option ErrorDetails;
  pagination : Pagination;
  sortBy : string;
  filters : FilterState;
  filtersRef : nat
}.

Definition emptyFilters : FilterState := mkFilterState None None None.

Definition initialView : View :=
  mkView [] true false None (mkPagination 1 1 0 6) "publishDate" emptyFilters 0.

Definition H := M View Request.

(** *** Setters *)

Definition setPosts (ps : list Post) : H unit :=
  modify (fun v => mkView ps (isLoading v) (showErrorModal v) (errorDetails v)
                          (pagination v) (sortBy v) (filters v) (filtersRef v)).

Definition setIsLoading (b : bool) : H unit :=
  modify (fun v => mkView (posts v) b (showErrorModal v) (errorDetails v)
                          (pagination v) (sortBy v) (filters v) (filtersRef v)).

Definition setShowErrorModal (b : bool) : H unit :=
  modify (fun v => mkView (posts v) (isLoading v) b (errorDetails v)
                          (pagination v) (sortBy v) (filters v) (filtersRef v)).

Definition setErrorDetails (e : option ErrorDetails) : H unit :=
  modify (fun v => mkView (posts v) (isLoading v) (showErrorModal v) e
                          (pagination v) (sortBy v) (filters v) (filtersRef v)).

Definition setPagination (f : Pagination -> Pagination) : H unit :=
  modify (fun v => mkView (posts v) (isLoading v) (showErrorModal v) (errorDetails v)
                          (f (pagination v)) (sortBy v) (filters v) (filtersRef v)).

Definition setSortBy (s : string) : H unit :=
  modify (fun v => mkView (posts v) (isLoading v) (showErrorModal v) (errorDetails v)
                          (pagination v) s (filters v) (filtersRef v)).

(** Every call site passes a freshly built object, hence a new identity. *)
Definition setFilters (f : FilterState -> FilterState) : H unit :=
  modify (fun v => mkView (posts v) (isLoading v) (showErrorModal v) (errorDetails v)
                          (pagination v) (sortBy v) (f (filters v)) (S (filtersRef v))).

(** [{ ...prev, currentPage: n }] *)
Definition withCurrentPage (n : Z) (prev : Pagination) : Pagination :=
  mkPagination n (totalPages prev) (totalItems prev) (itemsPerPage prev).

(** [{ ...prev, ...newFilters }] *)
Definition spread (prev : FilterState) (nf : PartialFilterState) : FilterState :=
  mkFilterState
    (match p_dateInterval nf with Some x => x | None => dateInterval prev end)
    (match p_searchQuery nf with Some x => x | None => searchQuery prev end)
    (match p_categoryIds nf with Some x => x | None => categoryIds prev end).

(** *** fetchPosts *)

Inductive GetOutcome :=
| GetOk (ps : list Post) (pg : Pagination)
| GetFail (err : Js.Thrown).

Definition listUrl : string := (backendUrl ++ "/posts/user/posts")%string.

Definition buildParams (c : View) (page : Z) (sort : string)
           (currentFilters : FilterState) : list (string * string) :=
  [("page", Js.toString page);
   ("limit", Js.toString (itemsPerPage (pagination c)));
   ("sort", sort)]
  ++ match dateInterval currentFilters with
     | Some d => if Js.truthy (startDate d) then [("startDate", startDate d)] else []
     | None => []
     end
  ++ match dateInterval currentFilters with
     | Some d => if Js.truthy (endDate d) then [("endDate", endDate d)] else []
     | None => []
     end
  ++ match categoryIds currentFilters with
     | Some ids => if (0 <? Z.of_nat (List.length ids))
                   then [("categories", Js.join ids)] else []
     | None => []
     end.

Local Open Scope handler_scope.

(** Up to the [await]: the flag is raised and the request leaves. *)
Definition fetchPosts_begin (c : View) (page : Z) (sort : string)
           (currentFilters : FilterState) : H unit :=
  setIsLoading true ;;
  emit (Get listUrl (buildParams c page sort currentFilters)).

Definition loadError : ErrorDetails :=
  mkError (t "userPosts.errors.loadFailed") (Some (t "error.tryAgain"))
          (Some "POSTS_LOAD_ERROR").

(** From the [await] on: the [try] body or the [catch], then [finally]. *)
Definition fetchPosts_end (o : GetOutcome) : H unit :=
  match o with
  | GetOk ps pg =>
      setPosts ps ;;
      setPagination (fun _ => pg)
  | GetFail _ =>
      setErrorDetails (Some loadError) ;;
      setShowErrorModal true
  end ;;
  setIsLoading false.

Definition fetchPosts (c : View) (page : Z) (sort : string)
           (currentFilters : FilterState) (o : GetOutcome) : H unit :=
  fetchPosts_begin c page sort currentFilters ;;
  fetchPosts_end o.

(** *** useEffect(..., [pagination.currentPage, sortBy, filters]) *)

Definition depsChanged (rendered now : View) : bool :=
  negb ((currentPage (pagination rendered) =? currentPage (pagination now))
        && (sortBy rendered =? sortBy now)%string
        && (filtersRef rendered =? filtersRef now)%nat).

(** After the handler of the render [rendered] has run, the component
    renders again and the effect fires when a dependency differs. *)
Definition useEffect (rendered : View) : H unit :=
  fun w =>
    let now := view w in
    if depsChanged rendered now
    then fetchPosts_begin now (currentPage (pagination now)) (sortBy now) (filters now) w
    else (tt, w).

(** The effect of the first render. *)
Definition mount : H unit :=
  fetchPosts_begin initialView (currentPage (pagination initialView))
                   (sortBy initialView) (filters initialView).

(** *** Handlers *)

Definition handleSortChange (newSort : string) : H unit :=
  setSortBy newSort ;;
  setPagination (withCurrentPage 1).

Definition handleFilterChange (newFilters : PartialFilterState) : H unit :=
  setFilters (fun prev => spread prev newFilters) ;;
  setPagination (withCurrentPage 1).

Definition handleResetAll : H unit :=
  setSortBy "publishDate" ;;
  setFilters (fun _ => emptyFilters) ;;
  setPagination (withCurrentPage 1).

Definition handlePageChange (c : View) (newPage : Z) : H unit :=
  if (1 <=? newPage) && (newPage <=? totalPages (pagination c))
  then setPagination (withCurrentPage newPage)
  else ret tt.

Inductive DeleteOutcome :=
| DeleteOk
| DeleteFail (err : Js.Thrown).

Definition deleteUrl (postId : Z) : string :=
  (backendUrl ++ "/posts/" ++ Js.toString postId)%string.

Definition deleteError (err : Js.Thrown) : ErrorDetails :=
  if Js.isAxiosError err
  then mkError (Js.or_else (Js.responseError err) (t "userPosts.errors.deleteFailed"))
               (Some (t "error.tryAgain")) (Some "POST_DELETE_ERROR")
  else mkError (t "userPosts.errors.deleteFailed")
               (Some (t "error.tryAgain")) (Some "POST_DELETE_ERROR").

(** [Math.ceil((pagination.totalItems - 1) / pagination.itemsPerPage)] *)
Definition newTotalPages (c : View) : Js.num :=
  Js.ceil_div (totalItems (pagination c) - 1) (itemsPerPage (pagination c)).

(** [pagination.currentPage > newTotalPages && newTotalPages > 0] *)
Definition pageOverflows (c : View) : bool :=
  Js.gt (Js.Fin (currentPage (pagination c))) (newTotalPages c)
  && Js.gt (newTotalPages c) (Js.Fin 0).

(** [od] is the outcome of the delete request, [o1] and [o2] those of the
    two list requests; [o2] is consulted only when the second one is
    made.  [fetchPosts] catches its own failures, so the outer [catch] is
    reached from the delete request alone. *)
Definition handleDeletePost (c : View) (postId : Z) (od : DeleteOutcome)
           (o1 o2 : GetOutcome) : H unit :=
  emit (Delete (deleteUrl postId)) ;;
  match od with
  | DeleteOk =>
      fetchPosts c (currentPage (pagination c)) (sortBy c) (filters c) o1 ;;
      if pageOverflows c
      then match newTotalPages c with
           | Js.Fin n => fetchPosts c n (sortBy c) (filters c) o2
           | _ => ret tt
           end
      else ret tt
  | DeleteFail err =>
      setErrorDetails (Some (deleteError err)) ;;
      setShowErrorModal true
  end.

(** [onClose] of the error modal. *)
Definition onClose : H unit := setShowErrorModal false.

(** *** What the component shows and sends *)

(** The [error] prop of [ErrorModal]. *)
Definition modalError (v : View) : ErrorDetails :=
  match errorDetails v with
  | Some e => e
  | None => mkError (t "error.unknownError") (Some (t "error.tryAgain")) None
  end.

(** The error on screen: the modal's content while it is open. *)
Definition activeError (v : View) : option ErrorDetails :=
  if showErrorModal v then Some (modalError v) else None.

(** A user action on the render [c]: its handler, then the effect. *)
Definition userAction (c : View) (h : H unit) : H unit :=
  h ;; useEffect c.

Definition setSort (c : View) (key : string) : H unit :=
  userAction c (handleSortChange key).
Definition setFilter (c : View) (partial : PartialFilterState) : H unit :=
  userAction c (handleFilterChange partial).
Definition resetAll (c : View) : H unit :=
  userAction c handleResetAll.
Definition setPage (c : View) (n : Z) : H unit :=
  userAction c (handlePageChange c n).

(** The Query State of the view. *)
Record QueryState := mkQuery {
  page : Z;
  pageSize : Z;
  sortKey : string;
  queryFilters : FilterState
}.

Definition queryState (v : View) : QueryState :=
  mkQuery (currentPage (pagination v)) (itemsPerPage (pagination v))
          (sortBy v) (filters v).

(** The list requests of a log, by page parameter. *)
Definition isGet (r : Request) : bool :=
  match r with Get _ _ => true | Delete _ => false end.

Definition fetches (l : list Request) : list Request := filter isGet l.

Fixpoint param (k : string) (ps : list (string * string)) : option string :=
  match ps with
  | [] => None
  | (k', v) :: rest => if (k =? k')%string then Some v else param k rest
  end.

(** The [page] parameter of a list request. *)
Definition requestedPage (r : Request) : option string :=
  match r with
  | Get _ ps => param "page" ps
  | Delete _ => None
  end.

End Component.

End UserPosts.


(** ** ChangePasswordPage *)

Module ChangePasswordPage.

Record FormData := mkForm {
  oldPassword : string;
  newPassword : string;
  confirmPassword : string
}.

Record ShowPasswords := mkShow {
  showOld : bool;
  showNew : bool;
  showConfirm : bool
}.

Inductive ModalStatus := success | error_status.

Inductive Field := OldPassword | NewPassword | ConfirmPassword.

(** The body of the change-password request. *)
Record Body := mkBody {
  b_token : option string;
  b_oldPassword : string;
  b_newPassword : string;
  b_confirmPassword : string
}.

Inductive Effect :=
| PreventDefault
| Post (url : string) (body : Body)
| Logout
| SetTimeout (navigateTo : string) (ms : Z).

Inductive Outcome :=
| Resolved
| Rejected (err : Js.Thrown).

Section Component.
(** [config.backendUrl] and the [token] of the route ([useParams]). *)
Variable backendUrl : string.
Variable token : option string.

Record View := mkView {
  formData : FormData;
  showPasswords : ShowPasswords;
  error : option string;
  loading : bool;
  isModalOpen : bool;
  modalStatus : ModalStatus;
  modalMessage : string
}.

Definition initialView : View :=
  mkView (mkForm "" "" "") (mkShow false false false) None false false success "".

Definition H := M View Effect.

Definition setFormData (f : FormData -> FormData) : H unit :=
  modify (fun v => mkView (f (formData v)) (showPasswords v) (error v) (loading v)
                          (isModalOpen v) (modalStatus v) (modalMessage v)).

Definition setShowPasswords (f : ShowPasswords -> ShowPasswords) : H unit :=
  modify (fun v => mkView (formData v) (f (showPasswords v)) (error v) (loading v)
                          (isModalOpen v) (modalStatus v) (modalMessage v)).

Definition setError (e : option string) : H unit :=
  modify (fun v => mkView (formData v) (showPasswords v) e (loading v)
                          (isModalOpen v) (modalStatus v) (modalMessage v)).

Definition setLoading (b : bool) : H unit :=
  modify (fun v => mkView (formData v) (showPasswords v) (error v) b
                          (isModalOpen v) (modalStatus v) (modalMessage v)).

Definition setIsModalOpen (b : bool) : H unit :=
  modify (fun v => mkView (formData v) (showPasswords v) (error v) (loading v)
                          b (modalStatus v) (modalMessage v)).

Definition setModalStatus (s : ModalStatus) : H unit :=
  modify (fun v => mkView (formData v) (showPasswords v) (error v) (loading v)
                          (isModalOpen v) s (modalMessage v)).

Definition setModalMessage (m : string) : H unit :=
  modify (fun v => mkView (formData v) (showPasswords v) (error v) (loading v)
                          (isModalOpen v) (modalStatus v) m).

(** [{ ...prev, [name]: value }] for the three inputs of the form. *)
Definition handleInputChange (name : Field) (value : string) : H unit :=
  setFormData (fun prev =>
    match name with
    | OldPassword => mkForm value (newPassword prev) (confirmPassword prev)
    | NewPassword => mkForm (oldPassword prev) value (confirmPassword prev)
    | ConfirmPassword => mkForm (oldPassword prev) (newPassword prev) value
    end).

Definition togglePasswordVisibility (field : Field) : H unit :=
  setShowPasswords (fun prev =>
    match field with
    | OldPassword => mkShow (negb (showOld prev)) (showNew prev) (showConfirm prev)
    | NewPassword => mkShow (showOld prev) (negb (showNew prev)) (showConfirm prev)
    | ConfirmPassword => mkShow (showOld prev) (showNew prev) (negb (showConfirm prev))
    end).

Definition changeUrl : string := (backendUrl ++ "/auth/change-password")%string.

Definition requestBody (c : View) : Body :=
  mkBody token (oldPassword (formData c)) (newPassword (formData c))
         (confirmPassword (formData c)).

(** [formData.newPassword !== formData.confirmPassword] *)
Definition mismatch (c : View) : bool :=
  negb (newPassword (formData c) =? confirmPassword (formData c))%string.

(** [formData.newPassword.length < 6]; a character stands for a UTF-16 unit. *)
Definition tooShort (c : View) : bool :=
  Z.of_nat (String.length (newPassword (formData c))) <? 6.

Local Open Scope handler_scope.

Definition errorMessage (err : Js.Thrown) : string :=
  if Js.isAxiosError err
  then Js.or_else (Js.responseError err) "Failed to change password"
  else "Failed to change password".

(** The [catch] block. *)
Definition onFailure (err : Js.Thrown) : H unit :=
  setError (Some (errorMessage err)) ;;
  setModalStatus error_status ;;
  setModalMessage (errorMessage err) ;;
  setIsModalOpen true.

(** [post] is the outcome of the change-password request and [logout] that
    of [AuthService.logout()], awaited only after a successful request. *)
Definition handleSubmit (c : View) (post logout : Outcome) : H unit :=
  emit PreventDefault ;;
  setError None ;;
  if mismatch c then
    setError (Some "New passwords do not match")
  else if tooShort c then
    setError (Some "New password must be at least 6 characters long")
  else
    setLoading true ;;
    emit (Post changeUrl (requestBody c)) ;;
    match post with
    | Resolved =>
        setModalStatus success ;;
        setModalMessage "Password successfully changed! Redirecting to login..." ;;
        setIsModalOpen true ;;
        emit Logout ;;
        match logout with
        | Resolved => emit (SetTimeout "/login" 3000)
        | Rejected err => onFailure err
        end
    | Rejected err => onFailure err
    end ;;
    setLoading false.

Definition isRequest (e : Effect) : bool :=
  match e with Post _ _ => true | _ => false end.

(** The network requests of a log. *)
Definition requests (l : list Effect) : list Effect := filter isRequest l.

End Component.

End ChangePasswordPage.

(** ** AdminDashboard *)

Module AdminDashboard.

Inductive ActiveTab := posts | comments | categories.

Record Tab := mkTab { id : ActiveTab; label : string }.

Section Component.
(** The user model and the [UserRole] enumeration are declared elsewhere:
    a user has a role, roles are compared by [!==], and [ADMIN] is one of
    them. *)
Variable User : Type.
Variable Role : Type.
Variable role : User -> Role.
Variable Role_eq_dec : forall a b : Role, {a = b} + {a <> b}.
Variable ADMIN : Role.
Variable t : string -> string.

Inductive Content :=
| PostsManagement (currentUser : User)
| CommentsManagement (currentUser : User)
| CategoriesManagement.

Inductive Element :=
| Navigate (to : string) (replace : bool)
| Dashboard (tabs : list Tab) (activeTab : ActiveTab) (content : Content).

(** [currentUser?.role !== UserRole.ADMIN] *)
Definition notAdmin (currentUser : option User) : bool :=
  match currentUser with
  | None => true
  | Some u => if Role_eq_dec (role u) ADMIN then false else true
  end.

Definition tabs : list Tab :=
  [mkTab posts (t "admin.tabs.posts");
   mkTab comments (t "admin.tabs.comments");
   mkTab categories (t "admin.tabs.categories")].

Definition renderContent (currentUser : User) (activeTab : ActiveTab) : Content :=
  match activeTab with
  | posts => PostsManagement currentUser
  | comments => CommentsManagement currentUser
  | categories => CategoriesManagement
  end.

(** [activeTab] is the content of the component's one [useState] cell.
    Past the guard the user is not null ([notAdmin None] is [true]); the
    [None] branch below is there for totality only. *)
Definition AdminDashboard (currentUser : option User) (activeTab : ActiveTab) : Element :=
  if notAdmin currentUser then Navigate "/" true
  else match currentUser with
       | Some u => Dashboard tabs activeTab (renderContent u activeTab)
       | None => Navigate "/" true
       end.

(** The management component an element shows, if any. *)
Definition management (e : Element) : option Content :=
  match e with
  | Navigate _ _ => None
  | Dashboard _ _ content => Some content
  end.

End Component.

End AdminDashboard.


(** ** Concrete runs

    The values at which the components are run below: posts are their ids,
    the translation function returns its key (what i18next does for a key
    without a translation), and the back end lives at a fixed address. *)

Module Scenario.

Import UserPosts.

Definition keys (k : string) : string := k.

Definition api : string := "http://localhost:3000/api".

(** The list once the first page of [total] posts has arrived. *)
Definition loaded (page pages total : Z) (ps : list Z) : View Z :=
  mkView ps false false None (mkPagination page pages total 6)
         "publishDate" emptyFilters 0.

(** The body [{error: "Database unavailable"}] of a failed response. *)
Definition databaseUnavailable : Js.Thrown :=
  Js.AxiosError (Some "Database unavailable").

(** The view after the first fetch failed with that body. *)
Definition afterFailedLoad : World (View Z) Request :=
  exec (fetchPosts_end keys (GetFail Z databaseUnavailable))
       (exec (mount api) (mkWorld (initialView Z) [])).

(** Page 2 of seven posts, six to a page: the seventh post alone. *)
Definition lastPostAlone : View Z := loaded 2 2 7 [7].

(** Page 1 of fourteen posts, that is of three pages. *)
Definition firstOfThree : View Z := loaded 1 3 14 [1; 2; 3; 4; 5; 6].

(** A fetch that starts while the error of the failed load is stored, and
    the same fetch once it has succeeded. *)
Definition nextFetchStarted : World (View Z) Request :=
  exec (fetchPosts_begin api (view afterFailedLoad) 1 "publishDate" emptyFilters)
       afterFailedLoad.

Definition nextFetchLoaded : World (View Z) Request :=
  exec (fetchPosts_end keys (GetOk [1] (mkPagination 1 1 1 6))) nextFetchStarted.

(** A first fetch whose response reports ten posts per page. *)
Definition tenPerPage : World (View Z) Request :=
  exec (fetchPosts keys api (initialView Z) 1 "publishDate" emptyFilters
                   (GetOk [1; 2; 3] (mkPagination 1 1 3 10)))
       (mkWorld (initialView Z) []).

(** The password form with a confirmation that differs from the new
    password, with a new password of five characters, and filled in well. *)
Definition mistyped : ChangePasswordPage.View :=
  ChangePasswordPage.mkView
    (ChangePasswordPage.mkForm "old-secret" "new-secret" "new-secert")
    (ChangePasswordPage.mkShow false false false)
    None false false ChangePasswordPage.success "".

Definition fiveLetters : ChangePasswordPage.View :=
  ChangePasswordPage.mkView
    (ChangePasswordPage.mkForm "old-secret" "short" "short")
    (ChangePasswordPage.mkShow false false false)
    None false false ChangePasswordPage.success "".

Definition wellFilled : ChangePasswordPage.View :=
  ChangePasswordPage.mkView
    (ChangePasswordPage.mkForm "old-secret" "new-secret" "new-secret")
    (ChangePasswordPage.mkShow false false false)
    None false false ChangePasswordPage.success "".

(** Two roles and a user model with a login and a role. *)
Inductive UserRole := USER | ADMIN.

Definition UserRole_eq_dec (a b : UserRole) : {a = b} + {a <> b}.
Proof. decide equality. Defined.

Record User := mkUser { login : string; role : UserRole }.

Definition reader : User := mkUser "reader" USER.
Definition root : User := mkUser "root" ADMIN.

End Scenario.

(** ** UserPosts: what is rendered, and traces of steps *)

Module UserPostsScreen.

Import UserPosts.

Section Component.
Variable Post : Type.
Variable User : Type.
Variable t : string -> string.
Variable backendUrl : string.

(** The props of [Pagination]. *)
Record Pager := mkPager { pg_currentPage : Z; pg_totalPages : Z; pg_totalItems : Z }.

(** Below the filter bar: the spinner, or the cards with the "no posts"
    line and the pager. *)
Inductive Body :=
| Spinner
| Listing (cards : list Post) (noPosts : bool) (pager : option Pager).

Record Screen := mkScreen {
  body : Body;
  modalOpen : bool;
  modalContent : ErrorDetails
}.

(** The component's output; [None] is the [null] of [if (!user) return null]. *)
Definition render (user : option User) (v : View Post) : option Screen :=
  match user with
  | None => None
  | Some _ =>
      Some (mkScreen
              (if isLoading v then Spinner
               else Listing (posts v)
                            (Nat.eqb (List.length (posts v)) 0)
                            (if Nat.ltb 0 (List.length (posts v))
                             then Some (mkPager (currentPage (pagination v))
                                                (totalPages (pagination v))
                                                (totalItems (pagination v)))
                             else None))
              (showErrorModal v)
              (modalError t v))
  end.

(** The steps the view can take, each with the closure it may hold: the
    handlers, the two halves of a fetch, the effect, and a delete. *)
Inductive Op :=
| OSort (key : string)
| OFilter (partial : PartialFilterState)
| OReset
| OPage (c : View Post) (n : Z)
| OClose
| OEffect (c : View Post)
| OBegin (c : View Post) (pg : Z) (sort : string) (cf : FilterState)
| OEnd (o : GetOutcome Post)
| ODelete (c : View Post) (postId : Z) (od : DeleteOutcome) (o1 o2 : GetOutcome Post).

Definition runOp (op : Op) : H Post unit :=
  match op with
  | OSort key => handleSortChange key
  | OFilter partial => handleFilterChange partial
  | OReset => @handleResetAll Post
  | OPage c n => handlePageChange c n
  | OClose => @onClose Post
  | OEffect c => useEffect backendUrl c
  | OBegin c pg sort cf => fetchPosts_begin backendUrl c pg sort cf
  | OEnd o => fetchPosts_end t o
  | ODelete c postId od o1 o2 => handleDeletePost t backendUrl c postId od o1 o2
  end.

Fixpoint runOps (ops : list Op) (w : World (View Post) Request)
  : World (View Post) Request :=
  match ops with
  | [] => w
  | op :: rest => runOps rest (exec (runOp op) w)
  end.

(** The view when the component has just been mounted. *)
Definition mounted : World (View Post) Request :=
  exec (mount backendUrl) (mkWorld (initialView Post) []).

End Component.

End UserPostsScreen.

(** ** PasswordInput *)

Module PasswordInput.

Import ChangePasswordPage.

(** [type={show ? "text" : "password"}] *)
Definition inputType (show : bool) : string :=
  if show then "text" else "password".

(** The [show] prop the page passes to the input of a field. *)
Definition shown (f : Field) (s : ShowPasswords) : bool :=
  match f with
  | OldPassword => showOld s
  | NewPassword => showNew s
  | ConfirmPassword => showConfirm s
  end.

(** The [value] prop the page passes to the input of a field. *)
Definition value (f : Field) (d : FormData) : string :=
  match f with
  | OldPassword => oldPassword d
  | NewPassword => newPassword d
  | ConfirmPassword => confirmPassword d
  end.

Definition Field_eqb (a b : Field) : bool :=
  match a, b with
  | OldPassword, OldPassword
  | NewPassword, NewPassword
  | ConfirmPassword, ConfirmPassword => true
  | _, _ => false
  end.

End PasswordInput.

(** ** PostCommentFilter *)

Module PostCommentFilter.

Record DateInterval := mkDateInterval { startDate : string; endDate : string }.

Record FilterState := mkFilterState { dateInterval : option DateInterval }.

Record SortOption := mkSortOption { label : string; value : string }.

(** What the component calls on its parent. *)
Inductive Callback :=
| OnSortChange (sort : string)
| OnFilterChange (partial : FilterState)
| OnResetAll.

Definition COMMENT_SORT_OPTIONS : list SortOption :=
  [mkSortOption "Latest" "publishDate_DESC";
   mkSortOption "Oldest" "publishDate_ASC";
   mkSortOption "Most Liked" "likesCount_DESC";
   mkSortOption "Least Liked" "likesCount_ASC";
   mkSortOption "Most Replies" "repliesCount_DESC";
   mkSortOption "Least Replies" "repliesCount_ASC"].

(** [filters.dateInterval?.startDate] and [filters.dateInterval?.endDate] *)
Definition start (filters : FilterState) : option string :=
  option_map startDate (dateInterval filters).

Definition finish (filters : FilterState) : option string :=
  option_map endDate (dateInterval filters).

(** [Boolean(start || end)] *)
Definition hasActiveFilters (filters : FilterState) : bool :=
  Js.truthy (Js.or_else (start filters) (Js.or_else (finish filters) "")).

(** The [value] attributes of the two date inputs. *)
Definition startValue (filters : FilterState) : string :=
  Js.or_else (start filters) "".

Definition endValue (filters : FilterState) : string :=
  Js.or_else (finish filters) "".

(** The [onChange] handlers of the select and of the two date inputs. *)
Definition sortSelected (v : string) : Callback := OnSortChange v.

Definition startChanged (filters : FilterState) (v : string) : Callback :=
  OnFilterChange (mkFilterState (Some (mkDateInterval v (Js.or_else (finish filters) "")))).

Definition endChanged (filters : FilterState) (v : string) : Callback :=
  OnFilterChange (mkFilterState (Some (mkDateInterval (Js.or_else (start filters) "") v))).

(** The reset button is rendered under [hasActiveFilters &&]; its click
    calls [onResetAll]. *)
Definition resetButton (filters : FilterState) : option Callback :=
  if hasActiveFilters filters then Some OnResetAll else None.

End PostCommentFilter.

(** ** ProfilePage *)

Module ProfilePage.

Record EditableUserData := mkEdit {
  fullName : string;
  email : string;
  login : string
}.

Inductive ModalStatus := success | error_status.

Section Component.
(** The user model, the answer of [UsersService], [mapDtoToUser] and
    [File] are declared elsewhere; of a user the handlers read the full
    name, the email and the login. *)
Variable User : Type.
Variable Dto : Type.
Variable File : Type.
Variable mapDtoToUser : Dto -> User.
Variable user_fullName : User -> string.
Variable user_email : User -> string.
Variable user_login : User -> string.
Variable backendUrl : string.

Inductive Effect :=
| PreventDefault
| UpdateProfile (login fullName : string)
| UpdateProfileImage (file : File)
| OnUserUpdate (updatedUser : User)
| Post (url : string).

(** The outcome of a call to [UsersService] and of an [axios.post]. *)
Inductive ServiceOutcome :=
| Answered (dto : Dto)
| Refused (err : Js.Thrown).

Inductive PostOutcome :=
| Resolved
| Rejected (err : Js.Thrown).

Record View := mkView {
  isEditing : bool;
  isLoading : bool;
  editData : EditableUserData;
  error : option string;
  isModalOpen : bool;
  modalStatus : ModalStatus;
  modalMessage : string
}.

(** [user?.fullName || ''] and its two neighbours. *)
Definition initialView (user : option User) : View :=
  mkView false false
         (mkEdit (Js.or_else (option_map user_fullName user) "")
                 (Js.or_else (option_map user_email user) "")
                 (Js.or_else (option_map user_login user) ""))
         None false success "".

Definition H := M View Effect.

Definition setIsEditing (b : bool) : H unit :=
  modify (fun v => mkView b (isLoading v) (editData v) (error v)
                          (isModalOpen v) (modalStatus v) (modalMessage v)).

Definition setIsLoading (b : bool) : H unit :=
  modify (fun v => mkView (isEditing v) b (editData v) (error v)
                          (isModalOpen v) (modalStatus v) (modalMessage v)).

Definition setEditData (d : EditableUserData) : H unit :=
  modify (fun v => mkView (isEditing v) (isLoading v) d (error v)
                          (isModalOpen v) (modalStatus v) (modalMessage v)).

Definition setError (e : option string) : H unit :=
  modify (fun v => mkView (isEditing v) (isLoading v) (editData v) e
                          (isModalOpen v) (modalStatus v) (modalMessage v)).

Definition setIsModalOpen (b : bool) : H unit :=
  modify (fun v => mkView (isEditing v) (isLoading v) (editData v) (error v)
                          b (modalStatus v) (modalMessage v)).

Definition setModalStatus (s : ModalStatus) : H unit :=
  modify (fun v => mkView (isEditing v) (isLoading v) (editData v) (error v)
                          (isModalOpen v) s (modalMessage v)).

Definition setModalMessage (m : string) : H unit :=
  modify (fun v => mkView (isEditing v) (isLoading v) (editData v) (error v)
                          (isModalOpen v) (modalStatus v) m).

Local Open Scope handler_scope.

(** [error.response?.data?.error || fallback] on an [error: any]. *)
Definition reason (err : Js.Thrown) (fallback : string) : string :=
  Js.or_else (Js.responseError err) fallback.

Definition handleEditSubmit (c : View) (o : ServiceOutcome) : H unit :=
  emit PreventDefault ;;
  setIsLoading true ;;
  emit (UpdateProfile (login (editData c)) (fullName (editData c))) ;;
  match o with
  | Answered dto =>
      emit (OnUserUpdate (mapDtoToUser dto)) ;;
      setIsEditing false ;;
      setError None ;;
      setModalStatus success ;;
      setModalMessage "Profile updated successfully!" ;;
      setIsModalOpen true
  | Refused err =>
      setError (Some (reason err "Failed to update profile"))
  end ;;
  setIsLoading false.

(** [file] is [e.target.files?.[0]]. *)
Definition handleImageUpload (file : option File) (o : ServiceOutcome) : H unit :=
  match file with
  | Some f =>
      setIsLoading true ;;
      emit (UpdateProfileImage f) ;;
      match o with
      | Answered dto =>
          emit (OnUserUpdate (mapDtoToUser dto)) ;;
          setModalStatus success ;;
          setModalMessage "Profile image updated successfully!" ;;
          setIsModalOpen true
      | Refused err =>
          setError (Some (reason err "Failed to update profile picture")) ;;
          setModalStatus error_status ;;
          setModalMessage "Failed to update profile picture" ;;
          setIsModalOpen true
      end ;;
      setIsLoading false
  | None => ret tt
  end.

Definition emailChangeUrl : string :=
  (backendUrl ++ "/auth/initiate-email-change")%string.

Definition passwordChangeUrl : string :=
  (backendUrl ++ "/auth/initiate-password-change")%string.

Definition handleEmailChange (o : PostOutcome) : H unit :=
  emit PreventDefault ;;
  setIsLoading true ;;
  emit (Post emailChangeUrl) ;;
  match o with
  | Resolved =>
      setModalStatus success ;;
      setModalMessage "Email change instructions have been sent to your email." ;;
      setIsModalOpen true
  | Rejected err =>
      setModalStatus error_status ;;
      (if Js.isAxiosError err
       then setModalMessage (reason err "Failed to send change email message")
       else setModalMessage "Failed to send reset email") ;;
      setIsModalOpen true
  end ;;
  setIsLoading false.

Definition handlePasswordChange (o : PostOutcome) : H unit :=
  emit PreventDefault ;;
  setIsLoading true ;;
  emit (Post passwordChangeUrl) ;;
  match o with
  | Resolved =>
      setModalStatus success ;;
      setModalMessage "Password reset instructions have been sent to your email." ;;
      setIsModalOpen true
  | Rejected err =>
      setModalStatus error_status ;;
      (if Js.isAxiosError err
       then setModalMessage (reason err "Failed to send reset email")
       else setModalMessage "Failed to send reset email") ;;
      setIsModalOpen true
  end ;;
  setIsLoading false.

(** The inline handlers of the page.  The two inputs spread the [editData]
    of the render that created them. *)
Definition startEditing : H unit := setIsEditing true.

Definition loginInput (c : View) (v : string) : H unit :=
  setEditData (mkEdit (fullName (editData c)) (email (editData c)) v).

Definition fullNameInput (c : View) (v : string) : H unit :=
  setEditData (mkEdit v (email (editData c)) (login (editData c))).

Definition cancelEditing (user : User) : H unit :=
  setIsEditing false ;;
  setEditData (mkEdit (user_fullName user) (user_email user) (user_login user)) ;;
  setError None.

Definition closeModal : H unit := setIsModalOpen false.

Definition isRequest (e : Effect) : bool :=
  match e with
  | UpdateProfile _ _ | UpdateProfileImage _ | Post _ => true
  | PreventDefault | OnUserUpdate _ => false
  end.

(** The requests of a log. *)
Definition requests (l : list Effect) : list Effect := filter isRequest l.

End Component.

End ProfilePage.

(** ** AdminDashboard: the tab bar *)

Module AdminTabs.

Import AdminDashboard.

Definition ActiveTab_eqb (a b : ActiveTab) : bool :=
  match a, b with
  | posts, posts | comments, comments | categories, categories => true
  | _, _ => false
  end.

(** A tab button: its tab, [aria-current], and the tab its click selects
    ([setActiveTab(tab.id)]). *)
Record Button := mkButton {
  tab : Tab;
  ariaCurrent : option string;
  onClick : ActiveTab
}.

Definition button (activeTab : ActiveTab) (tb : Tab) : Button :=
  mkButton tb
           (if ActiveTab_eqb activeTab (id tb) then Some "page" else None)
           (id tb).

(** [tabs.map(tab => <button ... />)] *)
Definition tabBar (t : string -> string) (activeTab : ActiveTab) : list Button :=
  map (button activeTab) (tabs t).

Definition isCurrent (b : Button) : bool :=
  match ariaCurrent b with Some _ => true | None => false end.

End AdminTabs.

(** ** More concrete runs *)

Module Runs.

(** A user model with the fields the profile page reads; the service
    answers with the user itself. *)
Record Profile := mkProfile {
  p_fullName : string;
  p_email : string;
  p_login : string
}.

Definition ada : Profile := mkProfile "Ada Lovelace" "ada@example.org" "ada".

Definition editing : ProfilePage.View :=
  ProfilePage.mkView true false
    (ProfilePage.mkEdit "Ada Lovelace" "ada@example.org" "ada")
    None false ProfilePage.success "".

End Runs.

(** * Properties *)

(** ** Running a sequence of steps *)

Section Sequencing.

Variables St Ev B : Type.

Lemma exec_seq (m : M St Ev unit) (k : M St Ev B) (w : World St Ev) :
  exec (bind m (fun _ => k)) w = exec k (exec m w).
Proof.
  unfold exec, bind. destruct (m w) as [[] w']. reflexivity.
Qed.

Lemma exec_emit (e : Ev) (w : World St Ev) :
  exec (emit e) w = mkWorld (view w) (net w ++ [e]).
Proof. reflexivity. Qed.

Lemma exec_ret (w : World St Ev) : exec (ret tt) w = w.
Proof. reflexivity. Qed.

End Sequencing.

(** ** Arithmetic of the page count *)

Section CeilDiv.

Example ceil_div_values :
  Js.ceil_div 6 6 = Js.Fin 1 /\ Js.ceil_div 7 6 = Js.Fin 2
  /\ Js.ceil_div (-1) 6 = Js.Fin 0 /\ Js.ceil_div 7 (-2) = Js.Fin (-3)
  /\ Js.ceil_div 5 0 = Js.PosInf /\ Js.ceil_div (-1) 0 = Js.NegInf
  /\ Js.ceil_div 0 0 = Js.NaN.
Proof. repeat split. Qed.

Example gt_values :
  Js.gt (Js.Fin 2) (Js.Fin 1) = true /\ Js.gt (Js.Fin 2) Js.PosInf = false
  /\ Js.gt Js.NegInf (Js.Fin 0) = false /\ Js.gt (Js.Fin 2) Js.NaN = false.
Proof. repeat split. Qed.

(** On a positive page size [Math.ceil(a / b)] is the usual rounded-up
    quotient. *)
Lemma ceil_div_pos (a b : Z) :
  0 < b -> Js.ceil_div a b = Js.Fin ((a + b - 1) / b).
Proof.
  intros Hb. unfold Js.ceil_div.
  destruct (Z.eqb_spec b 0) as [E | _]; [lia |].
  f_equal.
  pose proof (Z.div_mod (- a) b ltac:(lia)) as D1.
  pose proof (Z.mod_pos_bound (- a) b Hb) as B1.
  apply Z.div_unique with (r := b - 1 - (- a) mod b); lia.
Qed.

(** The least [q] with [a <= q * b]. *)
Lemma ceil_div_spec (a b q : Z) :
  0 < b -> Js.ceil_div a b = Js.Fin q -> (q - 1) * b < a <= q * b.
Proof.
  intros Hb. unfold Js.ceil_div.
  destruct (Z.eqb_spec b 0) as [E | _]; [lia |].
  intros [= <-].
  pose proof (Z.div_mod (- a) b ltac:(lia)) as D1.
  pose proof (Z.mod_pos_bound (- a) b Hb) as B1.
  nia.
Qed.

(** The guard of the second request holds at finite page counts only. *)
Lemma gt_zero_fin (x : Js.num) :
  Js.gt x (Js.Fin 0) = true -> x = Js.PosInf \/ exists n, x = Js.Fin n /\ 0 < n.
Proof.
  destruct x as [n | | |]; simpl; intros Hgt; try discriminate.
  - right. exists n. split; [reflexivity | now apply Z.ltb_lt].
  - now left.
Qed.

Lemma gt_fin_fin (a : Z) (x : Js.num) :
  Js.gt (Js.Fin a) x = true -> Js.gt x (Js.Fin 0) = true ->
  exists n, x = Js.Fin n /\ 0 < n < a.
Proof.
  intros H1 H2. destruct (gt_zero_fin _ H2) as [-> | (n & -> & Hn)].
  - discriminate.
  - exists n. simpl in H1. apply Z.ltb_lt in H1. auto.
Qed.

End CeilDiv.

(** ** The list view *)

Section UserPostsProperties.

Import UserPosts.

Variable Post : Type.
Variable t : string -> string.
Variable backendUrl : string.

Let W := World (View Post) Request.

(** *** What a fetch does to the cells *)

Lemma fetchPosts_begin_view (c : View Post) pg sort cf (w : W) :
  view (exec (fetchPosts_begin backendUrl c pg sort cf) w) =
  mkView (posts (view w)) true (showErrorModal (view w)) (errorDetails (view w))
         (pagination (view w)) (sortBy (view w)) (filters (view w))
         (filtersRef (view w)).
Proof. reflexivity. Qed.

Lemma fetchPosts_begin_net (c : View Post) pg sort cf (w : W) :
  net (exec (fetchPosts_begin backendUrl c pg sort cf) w) =
  net w ++ [Get (listUrl backendUrl) (buildParams c pg sort cf)].
Proof. reflexivity. Qed.

Lemma fetchPosts_end_ok_view ps pgn (w : W) :
  view (exec (fetchPosts_end t (GetOk ps pgn)) w) =
  mkView ps false (showErrorModal (view w)) (errorDetails (view w))
         pgn (sortBy (view w)) (filters (view w)) (filtersRef (view w)).
Proof. reflexivity. Qed.

Lemma fetchPosts_end_fail_view err (w : W) :
  view (exec (fetchPosts_end t (GetFail Post err)) w) =
  mkView (posts (view w)) false true (Some (loadError t))
         (pagination (view w)) (sortBy (view w)) (filters (view w))
         (filtersRef (view w)).
Proof. reflexivity. Qed.

Lemma fetchPosts_end_net o (w : W) :
  net (exec (fetchPosts_end t o) w) = net w.
Proof. destruct o; reflexivity. Qed.

Lemma fetchPosts_split (c : View Post) pg sort cf o (w : W) :
  exec (fetchPosts t backendUrl c pg sort cf o) w =
  exec (fetchPosts_end t o) (exec (fetchPosts_begin backendUrl c pg sort cf) w).
Proof. reflexivity. Qed.

Lemma fetchPosts_net (c : View Post) pg sort cf o (w : W) :
  net (exec (fetchPosts t backendUrl c pg sort cf o) w) =
  net w ++ [Get (listUrl backendUrl) (buildParams c pg sort cf)].
Proof.
  now rewrite fetchPosts_split, fetchPosts_end_net, fetchPosts_begin_net.
Qed.

(** The effect never touches a cell other than the loading flag. *)
Lemma useEffect_view (c : View Post) (w : W) :
  view (exec (useEffect backendUrl c) w) =
  mkView (posts (view w))
         (if depsChanged c (view w) then true else isLoading (view w))
         (showErrorModal (view w)) (errorDetails (view w))
         (pagination (view w)) (sortBy (view w)) (filters (view w))
         (filtersRef (view w)).
Proof.
  unfold exec, useEffect.
  destruct (depsChanged c (view w)); [reflexivity |].
  destruct w as [[] l]; reflexivity.
Qed.

Lemma useEffect_net (c : View Post) (w : W) :
  net (exec (useEffect backendUrl c) w) =
  net w ++ (if depsChanged c (view w)
            then [Get (listUrl backendUrl)
                      (buildParams (view w) (currentPage (pagination (view w)))
                                   (sortBy (view w)) (filters (view w)))]
            else []).
Proof.
  unfold exec, useEffect.
  destruct (depsChanged c (view w)); [reflexivity |].
  cbn. now rewrite app_nil_r.
Qed.

(** A user action is its handler followed by the effect. *)
Lemma userAction_exec (c : View Post) (h : H Post unit) (w : W) :
  exec (userAction backendUrl c h) w = exec (useEffect backendUrl c) (exec h w).
Proof.
  unfold exec, userAction, bind. destruct (h w) as [[] w']. reflexivity.
Qed.

(** *** What the handlers do to the cells *)

Lemma handleSortChange_view key (w : W) :
  view (exec (handleSortChange key) w) =
  mkView (posts (view w)) (isLoading (view w)) (showErrorModal (view w))
         (errorDetails (view w)) (withCurrentPage 1 (pagination (view w)))
         key (filters (view w)) (filtersRef (view w)).
Proof. reflexivity. Qed.

Lemma handleFilterChange_view partial (w : W) :
  view (exec (handleFilterChange partial) w) =
  mkView (posts (view w)) (isLoading (view w)) (showErrorModal (view w))
         (errorDetails (view w)) (withCurrentPage 1 (pagination (view w)))
         (sortBy (view w)) (spread (filters (view w)) partial)
         (S (filtersRef (view w))).
Proof. reflexivity. Qed.

Lemma handleResetAll_view (w : W) :
  view (exec (@handleResetAll Post) w) =
  mkView (posts (view w)) (isLoading (view w)) (showErrorModal (view w))
         (errorDetails (view w)) (withCurrentPage 1 (pagination (view w)))
         "publishDate" emptyFilters (S (filtersRef (view w))).
Proof. reflexivity. Qed.

Lemma handlePageChange_view (c : View Post) n (w : W) :
  view (exec (handlePageChange c n) w) =
  if (1 <=? n) && (n <=? totalPages (pagination c))
  then mkView (posts (view w)) (isLoading (view w)) (showErrorModal (view w))
              (errorDetails (view w)) (withCurrentPage n (pagination (view w)))
              (sortBy (view w)) (filters (view w)) (filtersRef (view w))
  else view w.
Proof.
  unfold handlePageChange.
  destruct ((1 <=? n) && (n <=? totalPages (pagination c))); reflexivity.
Qed.

Lemma handler_net_unchanged (c : View Post) key partial n (w : W) :
  net (exec (handleSortChange key) w) = net w
  /\ net (exec (handleFilterChange partial) w) = net w
  /\ net (exec (@handleResetAll Post) w) = net w
  /\ net (exec (handlePageChange c n) w) = net w
  /\ net (exec (@onClose Post) w) = net w.
Proof.
  repeat split.
  unfold handlePageChange.
  destruct ((1 <=? n) && (n <=? totalPages (pagination c))); reflexivity.
Qed.

(** *** Loading flag *)

(** C7: a call of [fetchPosts] is its start followed by its completion;
    the start raises the loading flag and sends the request, so the flag is
    up while the request is awaited; the completion sends nothing and lowers
    the flag from whatever state it finds, on success and on failure alike.
    The two re-fetches of a successful delete are such calls. *)
Theorem fetchPosts_loading_flag :
  forall (c : View Post) pg sort cf (o o2 : GetOutcome Post) (postId : Z) (w w' : W),
    let started := exec (fetchPosts_begin backendUrl c pg sort cf) w in
    exec (fetchPosts t backendUrl c pg sort cf o) w
      = exec (fetchPosts_end t o) started
    /\ net started = net w ++ [Get (listUrl backendUrl) (buildParams c pg sort cf)]
    /\ isLoading (view started) = true
    /\ net (exec (fetchPosts_end t o) w') = net w'
    /\ isLoading (view (exec (fetchPosts_end t o) w')) = false
    /\ isLoading (view (exec (fetchPosts t backendUrl c pg sort cf o) w)) = false
    /\ exec (handleDeletePost t backendUrl c postId DeleteOk o o2) w
       = (let w1 := exec (fetchPosts t backendUrl c (currentPage (pagination c))
                                     (sortBy c) (filters c) o)
                         (exec (emit (Delete (deleteUrl backendUrl postId))) w) in
          if pageOverflows c
          then match newTotalPages c with
               | Js.Fin n => exec (fetchPosts t backendUrl c n (sortBy c) (filters c) o2) w1
               | _ => w1
               end
          else w1).
Proof.
  intros c pg sort cf o o2 postId w w' started. subst started.
  split; [apply fetchPosts_split |].
  split; [apply fetchPosts_begin_net |].
  split; [reflexivity |].
  split; [apply fetchPosts_end_net |].
  split; [destruct o; reflexivity |].
  split; [destruct o; reflexivity |].
  unfold handleDeletePost. rewrite !exec_seq. cbv zeta.
  destruct (pageOverflows c); [| apply exec_ret].
  destruct (newTotalPages c); first [reflexivity | apply exec_ret].
Qed.

(** *** Page reset *)

(** C6: a sort change, a filter change and a reset each leave the current
    page at 1, whatever it was before, both right after the handler and after
    the effect that follows it. *)
Theorem query_changes_reset_page :
  forall (c : View Post) (key : string) (partial : PartialFilterState) (w : W),
    currentPage (pagination (view (exec (handleSortChange key) w))) = 1
    /\ currentPage (pagination (view (exec (handleFilterChange partial) w))) = 1
    /\ currentPage (pagination (view (exec (@handleResetAll Post) w))) = 1
    /\ currentPage (pagination (view (exec (setSort backendUrl c key) w))) = 1
    /\ currentPage (pagination (view (exec (setFilter backendUrl c partial) w))) = 1
    /\ currentPage (pagination (view (exec (resetAll backendUrl c) w))) = 1.
Proof.
  intros c key partial w.
  unfold setSort, setFilter, resetAll.
  rewrite !userAction_exec, !useEffect_view.
  repeat split.
Qed.

(** *** Reset *)

(** C8: a reset yields the default sort, empty filters and page 1 (the page
    size is kept), and a second reset right after it yields the same Query
    State again. *)
Theorem resetAll_idempotent :
  forall (c c' : View Post) (w : W),
    let w1 := exec (resetAll backendUrl c) w in
    let w2 := exec (resetAll backendUrl c') w1 in
    queryState (view w1) =
      mkQuery 1 (itemsPerPage (pagination (view w))) "publishDate" emptyFilters
    /\ queryState (view w2) = queryState (view w1).
Proof.
  intros c c' w. cbv zeta.
  unfold resetAll.
  rewrite !userAction_exec, !useEffect_view, !handleResetAll_view, !useEffect_view,
    !handleResetAll_view.
  split; reflexivity.
Qed.

(** *** Deleting a post *)

Lemma pageOverflows_spec (c : View Post) :
  pageOverflows c =
  match newTotalPages c with
  | Js.Fin n => (n <? currentPage (pagination c)) && (0 <? n)
  | _ => false
  end.
Proof.
  unfold pageOverflows. destruct (newTotalPages c); reflexivity.
Qed.

Lemma handleDeletePost_ok_net (c : View Post) postId o1 o2 (w : W) :
  net (exec (handleDeletePost t backendUrl c postId DeleteOk o1 o2) w) =
  net w ++
    Delete (deleteUrl backendUrl postId)
    :: Get (listUrl backendUrl)
           (buildParams c (currentPage (pagination c)) (sortBy c) (filters c))
    :: match newTotalPages c with
       | Js.Fin n =>
           if (n <? currentPage (pagination c)) && (0 <? n)
           then [Get (listUrl backendUrl) (buildParams c n (sortBy c) (filters c))]
           else []
       | _ => []
       end.
Proof.
  unfold handleDeletePost.
  rewrite !exec_seq, exec_emit, pageOverflows_spec.
  destruct (newTotalPages c) as [n | | |];
    [destruct ((n <? currentPage (pagination c)) && (0 <? n)) |..];
    rewrite ?exec_ret, ?fetchPosts_net; cbn [net];
    rewrite <- ?app_assoc; reflexivity.
Qed.

(** C2: after a successful delete the current page is requested again;
    then, when the current page exceeds the page count recomputed from the
    pre-delete total, [ceil((totalItems - 1) / itemsPerPage)], and that count
    is positive, that page is requested as well, and nothing else is.  On a
    positive page size the recomputed count is the true ceiling.  With six
    posts per page, seven posts and the view on page 2, the requests are for
    page 2 and then page 1. *)
Theorem handleDeletePost_refetches :
  forall (c : View Post) (postId : Z) (o1 o2 : GetOutcome Post) (w : W),
    let cur := currentPage (pagination c) in
    let fetch p := Get (listUrl backendUrl) (buildParams c p (sortBy c) (filters c)) in
    net (exec (handleDeletePost t backendUrl c postId DeleteOk o1 o2) w) =
      net w ++
        Delete (deleteUrl backendUrl postId)
        :: fetch cur
        :: match newTotalPages c with
           | Js.Fin n => if (n <? cur) && (0 <? n) then [fetch n] else []
           | _ => []
           end
    /\ (0 < itemsPerPage (pagination c) ->
        exists n, newTotalPages c = Js.Fin n
                  /\ (n - 1) * itemsPerPage (pagination c)
                     < totalItems (pagination c) - 1
                     <= n * itemsPerPage (pagination c))
    /\ (forall ps l sm e tp s f r,
          c = mkView ps l sm e (mkPagination 2 tp 7 6) s f r ->
          map requestedPage
              (fetches (net (exec (handleDeletePost t backendUrl c postId DeleteOk o1 o2)
                                  (mkWorld c [])))) =
          [Some "2"; Some "1"]).
Proof.
  intros c postId o1 o2 w cur fetch. split; [| split].
  - apply handleDeletePost_ok_net.
  - intros Hpos. unfold newTotalPages.
    rewrite ceil_div_pos by assumption.
    eexists. split; [reflexivity |].
    apply ceil_div_spec; [assumption |].
    now rewrite ceil_div_pos by assumption.
  - intros ps l sm e tp s f r ->.
    rewrite handleDeletePost_ok_net. reflexivity.
Qed.

(** *** Changing the page *)

Lemma depsChanged_page (c : View Post) n :
  depsChanged c (mkView (posts c) (isLoading c) (showErrorModal c) (errorDetails c)
                        (withCurrentPage n (pagination c)) (sortBy c) (filters c)
                        (filtersRef c))
  = negb (currentPage (pagination c) =? n).
Proof.
  unfold depsChanged. cbn.
  now rewrite String.eqb_refl, Nat.eqb_refl, !andb_true_r.
Qed.

Lemma depsChanged_same (c : View Post) : depsChanged c c = false.
Proof.
  unfold depsChanged.
  now rewrite Z.eqb_refl, String.eqb_refl, Nat.eqb_refl.
Qed.

(** C5, as the code has it: a page request within [1, totalPages] sets the
    current page to the requested one and is followed by exactly one fetch,
    for that page, when the page differs from the current one, and by none
    when it is the current page already; a request outside the range changes
    nothing at all: same page, no fetch, no error raised. *)
Theorem setPage_in_and_out_of_range :
  forall (c : View Post) (n m : Z) (l : list Request),
    let w := mkWorld c l in
    (1 <= n <= totalPages (pagination c) ->
       currentPage (pagination (view (exec (setPage backendUrl c n) w))) = n
       /\ net (exec (setPage backendUrl c n) w) =
            l ++ (if n =? currentPage (pagination c) then []
                  else [Get (listUrl backendUrl)
                            (buildParams c n (sortBy c) (filters c))]))
    /\ (m < 1 \/ totalPages (pagination c) < m ->
          exec (setPage backendUrl c m) w = w).
Proof.
  intros c n m l w. subst w. unfold setPage.
  rewrite !userAction_exec. split.
  - intros [Hlo Hhi]. split.
    + rewrite useEffect_view, handlePageChange_view.
      apply Z.leb_le in Hlo. apply Z.leb_le in Hhi. now rewrite Hlo, Hhi.
    + rewrite useEffect_net, handlePageChange_view.
      destruct (handler_net_unchanged c "" (mkPartial None None None) n (mkWorld c l))
        as (_ & _ & _ & -> & _).
      apply Z.leb_le in Hlo. apply Z.leb_le in Hhi. rewrite Hlo, Hhi. cbn [andb view net].
      rewrite depsChanged_page, (Z.eqb_sym _ n).
      destruct (n =? currentPage (pagination c)); reflexivity.
  - intros Hout.
    assert (Hg : (1 <=? m) && (m <=? totalPages (pagination c)) = false).
    { apply andb_false_iff. destruct Hout; [left | right]; apply Z.leb_gt; lia. }
    unfold handlePageChange. rewrite Hg.
    unfold exec, useEffect, ret. cbn [snd view].
    now rewrite depsChanged_same.
Qed.

(** *** The error cells *)

Lemma handleDeletePost_fail_view (c : View Post) postId err o1 o2 (w : W) :
  view (exec (handleDeletePost t backendUrl c postId (DeleteFail err) o1 o2) w) =
  mkView (posts (view w)) (isLoading (view w)) true (Some (deleteError t err))
         (pagination (view w)) (sortBy (view w)) (filters (view w))
         (filtersRef (view w)).
Proof. reflexivity. Qed.

(** C3, as the code has it: the view stores one Error State at most, a new
    failure replacing the stored one; dismissing closes the modal, so that no
    error is on screen, and keeps the stored details; a fetch does not clear
    the Error State when it starts, nor when it succeeds: it writes the error
    cells on failure only. *)
Theorem error_state_lifecycle :
  forall (c : View Post) pg sort cf ps pgn err postId o1 o2 (w : W),
    let started := exec (fetchPosts_begin backendUrl c pg sort cf) w in
    let loaded := exec (fetchPosts t backendUrl c pg sort cf (GetOk ps pgn)) w in
    let failed := exec (fetchPosts t backendUrl c pg sort cf (GetFail Post err)) w in
    let undeleted :=
      exec (handleDeletePost t backendUrl c postId (DeleteFail err) o1 o2) w in
    let dismissed := exec (@onClose Post) w in
    (errorDetails (view started) = errorDetails (view w)
     /\ showErrorModal (view started) = showErrorModal (view w))
    /\ (errorDetails (view loaded) = errorDetails (view w)
        /\ showErrorModal (view loaded) = showErrorModal (view w))
    /\ activeError t (view failed) = Some (loadError t)
    /\ activeError t (view undeleted) = Some (deleteError t err)
    /\ (activeError t (view dismissed) = None
        /\ errorDetails (view dismissed) = errorDetails (view w)).
Proof.
  intros. repeat split.
Qed.

(** *** The page size *)

(** C4, as the code has it: the page size starts at 6 and is left as it is
    by a sort change, a filter change, a reset, a page change, a dismissal,
    the start of a fetch, a failed fetch and a failed delete; a successful
    fetch replaces the pagination metadata wholesale, so the page size
    becomes the one of the server's response. *)
Theorem itemsPerPage_kept_except_by_response :
  forall (c : View Post) key partial n pg sort cf ps pgn err postId o1 o2 (w : W),
    let ipp (w : W) := itemsPerPage (pagination (view w)) in
    itemsPerPage (pagination (initialView Post)) = 6
    /\ ipp (exec (setSort backendUrl c key) w) = ipp w
    /\ ipp (exec (setFilter backendUrl c partial) w) = ipp w
    /\ ipp (exec (resetAll backendUrl c) w) = ipp w
    /\ ipp (exec (setPage backendUrl c n) w) = ipp w
    /\ ipp (exec (@onClose Post) w) = ipp w
    /\ ipp (exec (fetchPosts_begin backendUrl c pg sort cf) w) = ipp w
    /\ ipp (exec (fetchPosts t backendUrl c pg sort cf (GetFail Post err)) w) = ipp w
    /\ ipp (exec (handleDeletePost t backendUrl c postId (DeleteFail err) o1 o2) w) = ipp w
    /\ ipp (exec (fetchPosts t backendUrl c pg sort cf (GetOk ps pgn)) w)
       = itemsPerPage pgn.
Proof.
  intros. subst ipp. cbv beta.
  unfold setSort, setFilter, resetAll, setPage.
  rewrite !userAction_exec, !useEffect_view, handlePageChange_view.
  repeat split.
  destruct ((1 <=? n) && (n <=? totalPages (pagination c))); reflexivity.
Qed.

(** *** The message of a failed load *)

(** C1, what the code does: whatever the failure carries, the Error State of
    a failed load has the fallback message, the retry hint and the code
    ['POSTS_LOAD_ERROR']; the message of the response body is not read.  A
    failed delete, next to it, does prefer the body's message. *)
Theorem load_failure_message_is_fallback :
  forall (c : View Post) pg sort cf (err : Js.Thrown) (w : W),
    errorDetails (view (exec (fetchPosts t backendUrl c pg sort cf (GetFail Post err)) w))
      = Some (mkError (t "userPosts.errors.loadFailed") (Some (t "error.tryAgain"))
                      (Some "POSTS_LOAD_ERROR"))
    /\ message (deleteError t Scenario.databaseUnavailable) = "Database unavailable"
    /\ option_map message (errorDetails (view Scenario.afterFailedLoad))
       = Some "userPosts.errors.loadFailed".
Proof.
  intros. repeat split.
Qed.

End UserPostsProperties.

(** *** Runs of the list view *)

Section UserPostsRuns.

Import UserPosts Scenario.

Example buildParams_filtered :
  buildParams firstOfThree 2 "likesCount"
    (mkFilterState (Some (mkDateInterval "2024-01-01" "")) None (Some [3; 11])) =
  [("page", "2"); ("limit", "6"); ("sort", "likesCount");
   ("startDate", "2024-01-01"); ("categories", "3,11")].
Proof. reflexivity. Qed.

Example mount_requests_first_page :
  net (exec (mount api) (mkWorld (initialView Z) [])) =
  [Get "http://localhost:3000/api/posts/user/posts"
       [("page", "1"); ("limit", "6"); ("sort", "publishDate")]].
Proof. reflexivity. Qed.

Example delete_failure_prefers_body :
  deleteError keys databaseUnavailable =
    mkError "Database unavailable" (Some "error.tryAgain") (Some "POST_DELETE_ERROR")
  /\ deleteError keys (Js.AxiosError (Some "")) =
    mkError "userPosts.errors.deleteFailed" (Some "error.tryAgain")
            (Some "POST_DELETE_ERROR").
Proof. split; reflexivity. Qed.

(** Page 2 of seven posts holds the seventh post alone: its deletion is
    followed by a request for page 2 and one for page 1. *)
Lemma handleDeletePost_refetches_run :
  0 < itemsPerPage (pagination lastPostAlone)
  /\ (exists n, newTotalPages lastPostAlone = Js.Fin n
                /\ (n - 1) * itemsPerPage (pagination lastPostAlone)
                   < totalItems (pagination lastPostAlone) - 1
                   <= n * itemsPerPage (pagination lastPostAlone))
  /\ map requestedPage
         (fetches (net (exec (handleDeletePost keys api lastPostAlone 7 DeleteOk
                                (GetOk [] (mkPagination 2 1 6 6))
                                (GetOk [1; 2; 3; 4; 5; 6] (mkPagination 1 1 6 6)))
                             (mkWorld lastPostAlone [])))) =
     [Some "2"; Some "1"].
Proof.
  destruct (handleDeletePost_refetches keys api lastPostAlone 7
              (GetOk [] (mkPagination 2 1 6 6))
              (GetOk [1; 2; 3; 4; 5; 6] (mkPagination 1 1 6 6))
              (mkWorld lastPostAlone [])) as (_ & Hceil & Hrun).
  split; [reflexivity |]. split.
  - apply Hceil. reflexivity.
  - apply (Hrun [7] false false None 2 "publishDate" emptyFilters 0%nat).
    reflexivity.
Defined.

(** Page 2 of three is requested from page 1; page 5 does not exist. *)
Lemma setPage_in_and_out_of_range_run :
  (currentPage (pagination (view (exec (setPage api firstOfThree 2)
                                       (mkWorld firstOfThree [])))) = 2
   /\ map requestedPage (net (exec (setPage api firstOfThree 2)
                                   (mkWorld firstOfThree []))) = [Some "2"])
  /\ exec (setPage api firstOfThree 5) (mkWorld firstOfThree [])
     = mkWorld firstOfThree [].
Proof.
  destruct (setPage_in_and_out_of_range api firstOfThree 2 5 []) as [Hin Hout].
  split.
  - destruct Hin as [Hpage Hnet]; [cbn; lia |].
    split; [exact Hpage |]. rewrite Hnet. reflexivity.
  - apply Hout. right. cbn. lia.
Defined.

(** C5, as stated, fails: page 1 of three is within range, and asking for it
    while it is the current page is followed by no fetch. *)
Lemma setPage_current_page_fetches_nothing :
  1 <= 1 <= totalPages (pagination firstOfThree)
  /\ net (exec (setPage api firstOfThree 1) (mkWorld firstOfThree [])) = []
  /\ ~ (exists r, net (exec (setPage api firstOfThree 1) (mkWorld firstOfThree [])) = [r]
                  /\ requestedPage r = Some "1").
Proof.
  split; [cbn; lia |]. split; [reflexivity |].
  intros (r & Hr & _). discriminate Hr.
Qed.

(** C3, as stated, fails: the error of a failed load is still stored and on
    screen when the next fetch has started, and when it has succeeded. *)
Lemma new_fetch_keeps_error_state :
  activeError keys (view afterFailedLoad) = Some (loadError keys)
  /\ errorDetails (view nextFetchStarted) = Some (loadError keys)
  /\ activeError keys (view nextFetchStarted) = Some (loadError keys)
  /\ activeError keys (view nextFetchLoaded) = Some (loadError keys)
  /\ errorDetails (view nextFetchStarted) <> None.
Proof.
  repeat split. discriminate.
Qed.

(** C4, as stated, fails: a response that reports ten posts per page makes
    ten the page size of the view. *)
Lemma response_changes_itemsPerPage :
  itemsPerPage (pagination (initialView Z)) = 6
  /\ itemsPerPage (pagination (view tenPerPage)) = 10
  /\ itemsPerPage (pagination (view tenPerPage))
     <> itemsPerPage (pagination (initialView Z)).
Proof.
  repeat split. discriminate.
Qed.

End UserPostsRuns.

(** ** The password form *)

Section ChangePasswordProperties.

Import ChangePasswordPage.

Variable backendUrl : string.
Variable token : option string.

Let W := World View Effect.

Lemma mismatch_iff (c : View) :
  mismatch c = true <-> newPassword (formData c) <> confirmPassword (formData c).
Proof.
  unfold mismatch. rewrite negb_true_iff. apply String.eqb_neq.
Qed.

Lemma tooShort_iff (c : View) :
  tooShort c = true <-> (String.length (newPassword (formData c)) < 6)%nat.
Proof.
  unfold tooShort. rewrite Z.ltb_lt. lia.
Qed.

Lemma handleSubmit_rejected (c : View) post logout (w : W) :
  mismatch c = true \/ tooShort c = true ->
  exec (handleSubmit backendUrl token c post logout) w =
  mkWorld (mkView (formData (view w)) (showPasswords (view w))
                  (Some (if mismatch c then "New passwords do not match"
                         else "New password must be at least 6 characters long"))
                  (loading (view w)) (isModalOpen (view w)) (modalStatus (view w))
                  (modalMessage (view w)))
          (net w ++ [PreventDefault]).
Proof.
  intros Hbad. unfold handleSubmit.
  destruct (mismatch c); [reflexivity |].
  destruct Hbad as [Hbad | ->]; [discriminate | reflexivity].
Qed.

Lemma handleSubmit_accepted (c : View) post logout (w : W) :
  mismatch c = false -> tooShort c = false ->
  exists rest,
    net (exec (handleSubmit backendUrl token c post logout) w) =
      net w ++ PreventDefault :: Post (changeUrl backendUrl) (requestBody token c) :: rest
    /\ requests rest = []
    /\ loading (view (exec (handleSubmit backendUrl token c post logout) w)) = false.
Proof.
  intros Hm Hs. unfold handleSubmit. rewrite Hm, Hs.
  destruct w as [[fd sp e ld mo ms mm] l].
  destruct post as [| err]; [destruct logout as [| err] |].
  - exists [Logout; SetTimeout "/login" 3000].
    cbn. rewrite <- !app_assoc. repeat split.
  - exists [Logout].
    cbn. rewrite <- !app_assoc. repeat split.
  - exists [].
    cbn. rewrite <- !app_assoc. repeat split.
Qed.

Lemma requests_app (l1 l2 : list Effect) :
  requests (l1 ++ l2) = requests l1 ++ requests l2.
Proof. apply filter_app. Qed.

(** C9: a submission whose new password and confirmation differ, or whose
    new password has fewer than six characters, sets a validation error,
    sends no request and does not touch the loading flag, which stays false;
    the change-password request is sent only when both checks pass, and is
    sent when they do. *)
Theorem handleSubmit_validation :
  forall (bad good : View) (post logout : Outcome) (w : W),
    let rejected := exec (handleSubmit backendUrl token bad post logout) w in
    let submitted := exec (handleSubmit backendUrl token good post logout) w in
    (newPassword (formData bad) <> confirmPassword (formData bad)
     \/ (String.length (newPassword (formData bad)) < 6)%nat ->
       (error (view rejected) = Some "New passwords do not match"
        \/ error (view rejected) = Some "New password must be at least 6 characters long")
       /\ requests (net rejected) = requests (net w)
       /\ loading (view rejected) = loading (view w)
       /\ (loading (view w) = false -> loading (view rejected) = false))
    /\ (requests (net submitted) <> requests (net w) ->
          newPassword (formData good) = confirmPassword (formData good)
          /\ (6 <= String.length (newPassword (formData good)))%nat)
    /\ (newPassword (formData good) = confirmPassword (formData good) ->
        (6 <= String.length (newPassword (formData good)))%nat ->
          requests (net submitted) =
          requests (net w) ++ [Post (changeUrl backendUrl) (requestBody token good)]).
Proof.
  intros bad good post logout w rejected submitted. subst rejected submitted.
  assert (Hrej : forall c, mismatch c = true \/ tooShort c = true ->
                 requests (net (exec (handleSubmit backendUrl token c post logout) w))
                 = requests (net w)).
  { intros c Hbad. rewrite (handleSubmit_rejected c post logout w Hbad).
    cbn [net]. rewrite requests_app. cbn. apply app_nil_r. }
  split; [| split].
  - intros Hbad.
    assert (Hbad' : mismatch bad = true \/ tooShort bad = true).
    { destruct Hbad as [Hne | Hlen];
        [left; now apply mismatch_iff | right; now apply tooShort_iff]. }
    split; [| split; [now apply Hrej | split]].
    + rewrite (handleSubmit_rejected bad post logout w Hbad'). cbn [view error].
      destruct (mismatch bad); [now left | now right].
    + now rewrite (handleSubmit_rejected bad post logout w Hbad').
    + rewrite (handleSubmit_rejected bad post logout w Hbad'). trivial.
  - intros Hsent.
    destruct (mismatch good) eqn:Hm; [exfalso; apply Hsent, Hrej; now left |].
    destruct (tooShort good) eqn:Hs; [exfalso; apply Hsent, Hrej; now right |].
    split.
    + unfold mismatch in Hm. apply negb_false_iff in Hm. now apply String.eqb_eq.
    + unfold tooShort in Hs. apply Z.ltb_ge in Hs. lia.
  - intros Heq Hlen.
    assert (Hm : mismatch good = false).
    { unfold mismatch. apply negb_false_iff. now apply String.eqb_eq. }
    assert (Hs : tooShort good = false).
    { unfold tooShort. apply Z.ltb_ge. lia. }
    destruct (handleSubmit_accepted good post logout w Hm Hs) as (rest & -> & Hrest & _).
    rewrite requests_app. f_equal.
    change (requests (PreventDefault :: Post (changeUrl backendUrl) (requestBody token good) :: rest))
      with (Post (changeUrl backendUrl) (requestBody token good) :: requests rest).
    now rewrite Hrest.
Qed.

End ChangePasswordProperties.

Section ChangePasswordRuns.

Import ChangePasswordPage Scenario.

(** A mistyped confirmation is rejected before anything is sent; the form
    filled in well sends one request. *)
Lemma handleSubmit_validation_run :
  (requests (net (exec (handleSubmit api (Some "tok") mistyped Resolved Resolved)
                       (mkWorld mistyped []))) = []
   /\ loading (view (exec (handleSubmit api (Some "tok") mistyped Resolved Resolved)
                          (mkWorld mistyped []))) = false)
  /\ requests (net (exec (handleSubmit api (Some "tok") wellFilled Resolved Resolved)
                         (mkWorld mistyped []))) =
     [Post (changeUrl api) (requestBody (Some "tok") wellFilled)].
Proof.
  destruct (handleSubmit_validation api (Some "tok") mistyped wellFilled
              Resolved Resolved (mkWorld mistyped [])) as (Hbad & Honly & Hgood).
  assert (Hsent : requests (net (exec (handleSubmit api (Some "tok") wellFilled
                                         Resolved Resolved) (mkWorld mistyped [])))
                  = [Post (changeUrl api) (requestBody (Some "tok") wellFilled)]).
  { apply Hgood; [reflexivity | cbn; lia]. }
  destruct Honly as [_ _]; [rewrite Hsent; discriminate |].
  destruct Hbad as (_ & Hreq & _ & Hload); [left; discriminate |].
  split; [split |].
  - exact Hreq.
  - apply Hload. reflexivity.
  - exact Hsent.
Defined.

End ChangePasswordRuns.

(** ** The admin gate *)

Section AdminDashboardProperties.

Import AdminDashboard.

Variables User Role : Type.
Variable role : User -> Role.
Variable Role_eq_dec : forall a b : Role, {a = b} + {a <> b}.
Variable ADMIN : Role.
Variable t : string -> string.

Lemma notAdmin_false (currentUser : option User) :
  notAdmin role Role_eq_dec ADMIN currentUser = false <->
  exists u, currentUser = Some u /\ role u = ADMIN.
Proof.
  unfold notAdmin. destruct currentUser as [u |].
  - destruct (Role_eq_dec (role u) ADMIN) as [E | N]; split.
    + intros _. now exists u.
    + reflexivity.
    + discriminate.
    + intros (u' & [= <-] & E). contradiction.
  - split; [discriminate | intros (u & Hu & _); discriminate].
Qed.

(** C10: for a null user and for a user whose role is not ADMIN the
    dashboard is a redirect to "/" and shows no management component; a
    management component is shown only to a user whose role is ADMIN, who
    gets the one of the active tab. *)
Theorem AdminDashboard_gate :
  forall (visitor admin : option User) (activeTab : ActiveTab),
    let render := AdminDashboard role Role_eq_dec ADMIN t in
    (visitor = None \/ (exists u, visitor = Some u /\ role u <> ADMIN) ->
       render visitor activeTab = Navigate User "/" true
       /\ management (render visitor activeTab) = None)
    /\ (management (render admin activeTab) <> None ->
          exists u, admin = Some u /\ role u = ADMIN)
    /\ (forall u, admin = Some u -> role u = ADMIN ->
          management (render admin activeTab) = Some (renderContent u activeTab)).
Proof.
  intros visitor admin activeTab render. subst render. split; [| split].
  - intros Hv.
    assert (Hn : notAdmin role Role_eq_dec ADMIN visitor = true).
    { destruct (notAdmin role Role_eq_dec ADMIN visitor) eqn:E; [reflexivity |].
      apply notAdmin_false in E. destruct E as (u & Hu & Hr).
      destruct Hv as [Hv | (u' & Hu' & Hr')]; [congruence |].
      rewrite Hu in Hu'. injection Hu' as <-. contradiction. }
    unfold AdminDashboard. rewrite Hn. split; reflexivity.
  - unfold AdminDashboard.
    destruct (notAdmin role Role_eq_dec ADMIN admin) eqn:E.
    + intros Hm. now contradiction Hm.
    + intros _. now apply notAdmin_false.
  - intros u -> Hr. unfold AdminDashboard, notAdmin.
    destruct (Role_eq_dec (role u) ADMIN) as [_ | N]; [reflexivity | contradiction].
Qed.

End AdminDashboardProperties.

Section AdminDashboardRuns.

Import AdminDashboard Scenario.

(** Nobody and a reader are sent home; the administrator sees the posts. *)
Lemma AdminDashboard_gate_run :
  AdminDashboard role UserRole_eq_dec ADMIN keys None posts = Navigate User "/" true
  /\ AdminDashboard role UserRole_eq_dec ADMIN keys (Some reader) comments
     = Navigate User "/" true
  /\ management (AdminDashboard role UserRole_eq_dec ADMIN keys (Some root) posts)
     = Some (PostsManagement root).
Proof.
  destruct (AdminDashboard_gate role UserRole_eq_dec ADMIN keys None (Some root) posts)
    as (Hnull & Honly & Hadmin).
  destruct (AdminDashboard_gate role UserRole_eq_dec ADMIN keys (Some reader) (Some root)
              comments) as (Hreader & _ & _).
  destruct Hnull as [Hnull _]; [now left |].
  destruct Hreader as [Hreader _];
    [right; exists reader; split; [reflexivity | discriminate] |].
  assert (Hshown : management (AdminDashboard role UserRole_eq_dec ADMIN keys
                                 (Some root) posts) = Some (PostsManagement root)).
  { apply (Hadmin root); reflexivity. }
  destruct Honly as (u & _ & _); [rewrite Hshown; discriminate |].
  repeat split; assumption.
Defined.

End AdminDashboardRuns.

(** * Further properties *)

(** ** The list view: requests *)

Section UserPostsRequests.

Import UserPosts.

Variable Post : Type.
Variable t : string -> string.
Variable backendUrl : string.

Let W := World (View Post) Request.

Lemma param_app k (l1 l2 : list (string * string)) :
  param k (l1 ++ l2) = match param k l1 with Some v => Some v | None => param k l2 end.
Proof.
  induction l1 as [| [k' v] l1 IH]; [reflexivity |].
  cbn. destruct (k =? k')%string; [reflexivity | exact IH].
Qed.

(** X1: the parameters of a list request are [page], [limit] and [sort],
    always, plus [startDate], [endDate] and [categories] and no other key;
    [categories] is present exactly when the list of category ids is
    non-empty, and the search query of the filters changes nothing. *)
Theorem buildParams_keys :
  forall (c : View Post) (pg : Z) (sort : string) (cf : FilterState) (k : string),
    param "page" (buildParams c pg sort cf) = Some (Js.toString pg)
    /\ param "limit" (buildParams c pg sort cf)
       = Some (Js.toString (itemsPerPage (pagination c)))
    /\ param "sort" (buildParams c pg sort cf) = Some sort
    /\ param "categories" (buildParams c pg sort cf)
       = match categoryIds cf with
         | Some (i :: ids) => Some (Js.join (i :: ids))
         | _ => None
         end
    /\ (param k (buildParams c pg sort cf) = None
        \/ In k ["page"; "limit"; "sort"; "startDate"; "endDate"; "categories"])
    /\ buildParams c pg sort cf
       = buildParams c pg sort (mkFilterState (dateInterval cf) None (categoryIds cf)).
Proof.
  intros c pg sort cf k. destruct cf as [d q ids]. unfold buildParams.
  cbn [dateInterval categoryIds searchQuery].
  repeat split.
  - destruct d as [[s e] |]; cbn [startDate endDate];
      [destruct (Js.truthy s), (Js.truthy e) |];
      destruct ids as [[| i ids] |]; reflexivity.
  - rewrite !param_app.
    destruct (String.eqb_spec k "page") as [-> | Hp]; [right; cbn; tauto |].
    destruct (String.eqb_spec k "limit") as [-> | Hl]; [right; cbn; tauto |].
    destruct (String.eqb_spec k "sort") as [-> | Hs]; [right; cbn; tauto |].
    destruct (String.eqb_spec k "startDate") as [-> | Hsd]; [right; cbn; tauto |].
    destruct (String.eqb_spec k "endDate") as [-> | Hed]; [right; cbn; tauto |].
    destruct (String.eqb_spec k "categories") as [-> | Hc]; [right; cbn; tauto |].
    left.
    apply String.eqb_neq in Hp, Hl, Hs, Hsd, Hed, Hc.
    cbn [param]. rewrite Hp, Hl, Hs.
    destruct d as [[s e] |]; cbn [startDate endDate];
      [destruct (Js.truthy s), (Js.truthy e) |];
      destruct ids as [[| i ids] |]; cbn; rewrite ?Hsd, ?Hed, ?Hc; reflexivity.
Qed.

Lemma handleDeletePost_fail_net (c : View Post) postId err o1 o2 (w : W) :
  net (exec (handleDeletePost t backendUrl c postId (DeleteFail err) o1 o2) w) =
  net w ++ [Delete (deleteUrl backendUrl postId)].
Proof. reflexivity. Qed.

(** X2: a failed delete sends nothing but the delete request and leaves
    posts, pagination, sort, filters and the loading flag as they are; it
    opens the error modal with code ['POST_DELETE_ERROR'], the retry hint,
    and the message of the response body when that is a non-empty string,
    the fallback copy otherwise. *)
Theorem handleDeletePost_failure :
  forall (c : View Post) (postId : Z) (err : Js.Thrown) (o1 o2 : GetOutcome Post) (w : W),
    let w' := exec (handleDeletePost t backendUrl c postId (DeleteFail err) o1 o2) w in
    net w' = net w ++ [Delete (deleteUrl backendUrl postId)]
    /\ view w' =
       mkView (posts (view w)) (isLoading (view w)) true
              (Some (mkError
                       match err with
                       | Js.AxiosError (Some m) =>
                           if (m =? "")%string then t "userPosts.errors.deleteFailed" else m
                       | _ => t "userPosts.errors.deleteFailed"
                       end
                       (Some (t "error.tryAgain")) (Some "POST_DELETE_ERROR")))
              (pagination (view w)) (sortBy (view w)) (filters (view w))
              (filtersRef (view w)).
Proof.
  intros c postId err o1 o2 w w'. subst w'. split; [reflexivity |].
  rewrite handleDeletePost_fail_view. f_equal. f_equal.
  destruct err as [[m |] |]; try reflexivity.
  unfold deleteError, Js.or_else, Js.truthy. cbn.
  destruct (m =? "")%string; reflexivity.
Qed.

(** X3: the requests [handleDeletePost] itself sends on a successful
    delete are the delete and then one list request, for the current page,
    or two; its second list request asks for a page [n] with
    [0 < n < currentPage], so never for page 0, a negative page, or a page
    at or beyond the current one.  What the effect sends once a response has
    changed the current page is not a request of the handler. *)
Theorem handleDeletePost_second_page_bound :
  forall (c : View Post) (postId : Z) (o1 o2 : GetOutcome Post) (w : W),
    let fetch p := Get (listUrl backendUrl) (buildParams c p (sortBy c) (filters c)) in
    let w' := exec (handleDeletePost t backendUrl c postId DeleteOk o1 o2) w in
    net w' = net w ++ [Delete (deleteUrl backendUrl postId);
                       fetch (currentPage (pagination c))]
    \/ exists n, 0 < n < currentPage (pagination c)
                 /\ net w' = net w ++ [Delete (deleteUrl backendUrl postId);
                                        fetch (currentPage (pagination c));
                                        fetch n].
Proof.
  intros c postId o1 o2 w fetch w'. subst w' fetch.
  rewrite handleDeletePost_ok_net.
  destruct (newTotalPages c) as [n | | |]; try (left; reflexivity).
  destruct ((n <? currentPage (pagination c)) && (0 <? n)) eqn:E;
    [| left; reflexivity].
  apply andb_true_iff in E. destruct E as [E1 E2].
  apply Z.ltb_lt in E1. apply Z.ltb_lt in E2.
  right. exists n. split; [lia | reflexivity].
Qed.

Lemma handleDeletePost_ok_exec (c : View Post) postId o1 o2 (w : W) :
  exec (handleDeletePost t backendUrl c postId DeleteOk o1 o2) w =
  let w1 := exec (fetchPosts t backendUrl c (currentPage (pagination c))
                             (sortBy c) (filters c) o1)
                 (exec (emit (Delete (deleteUrl backendUrl postId))) w) in
  if pageOverflows c
  then match newTotalPages c with
       | Js.Fin n => exec (fetchPosts t backendUrl c n (sortBy c) (filters c) o2) w1
       | _ => w1
       end
  else w1.
Proof.
  unfold handleDeletePost. rewrite !exec_seq. cbv zeta.
  destruct (pageOverflows c); [| apply exec_ret].
  destruct (newTotalPages c); first [reflexivity | apply exec_ret].
Qed.

(** X4: at the return of [handleDeletePost] after a successful delete,
    before the effect of a later render has run, the loading flag is down
    whatever the list requests returned; the view holds the posts and
    pagination of the handler's last list response when that one succeeded,
    and a failure of its first list request is still on screen even when the
    second succeeded. *)
Theorem handleDeletePost_success_view :
  forall (c : View Post) (postId : Z) (o1 o2 : GetOutcome Post) (w : W),
    let w' := exec (handleDeletePost t backendUrl c postId DeleteOk o1 o2) w in
    let last := if pageOverflows c then o2 else o1 in
    isLoading (view w') = false
    /\ match last with
       | GetOk ps pgn => posts (view w') = ps /\ pagination (view w') = pgn
       | GetFail _ _ => activeError t (view w') = Some (loadError t)
       end
    /\ match o1 with
       | GetOk _ _ => True
       | GetFail _ _ => activeError t (view w') = Some (loadError t)
       end.
Proof.
  intros c postId o1 o2 w w' last. subst w' last.
  rewrite handleDeletePost_ok_exec. cbv zeta.
  rewrite pageOverflows_spec.
  destruct (newTotalPages c) as [n | | |];
    [destruct ((n <? currentPage (pagination c)) && (0 <? n)) |..];
    destruct o1; try destruct o2; repeat split.
Qed.

End UserPostsRequests.

(** ** The list view: user actions and the effect *)

Section UserPostsActions.

Import UserPosts.

Variable Post : Type.
Variable t : string -> string.
Variable backendUrl : string.

Let W := World (View Post) Request.

Lemma buildParams_limit (c c' : View Post) pg sort cf :
  itemsPerPage (pagination c') = itemsPerPage (pagination c) ->
  buildParams c' pg sort cf = buildParams c pg sort cf.
Proof. intros E. unfold buildParams. now rewrite E. Qed.

Lemma depsChanged_fresh_filters (c v : View Post) :
  filtersRef v = S (filtersRef c) -> depsChanged c v = true.
Proof.
  intros E. unfold depsChanged. rewrite E.
  replace (filtersRef c =? S (filtersRef c))%nat with false.
  - now rewrite andb_false_r.
  - symmetry. apply Nat.eqb_neq. lia.
Qed.

(** X5: a sort change made on the current render is followed by one list
    request, for page 1 with the new key, unless the view is already on
    page 1 with that key, in which case nothing is requested; either way the
    view ends on page 1 with the new key, its filters and page size kept. *)
Theorem setSort_requests :
  forall (c : View Post) (key : string) (l : list Request),
    let w' := exec (setSort backendUrl c key) (mkWorld c l) in
    net w' = l ++ (if (currentPage (pagination c) =? 1) && (sortBy c =? key)%string
                   then []
                   else [Get (listUrl backendUrl) (buildParams c 1 key (filters c))])
    /\ queryState (view w') = mkQuery 1 (itemsPerPage (pagination c)) key (filters c).
Proof.
  intros c key l w'. subst w'. unfold setSort.
  rewrite userAction_exec. split.
  - rewrite useEffect_net, handleSortChange_view. cbn [view net exec handleSortChange].
    unfold depsChanged.
    cbn [pagination withCurrentPage currentPage sortBy filtersRef filters view].
    rewrite Nat.eqb_refl, andb_true_r.
    destruct ((currentPage (pagination c) =? 1) && (sortBy c =? key)%string);
      reflexivity.
  - rewrite useEffect_view, handleSortChange_view. reflexivity.
Qed.

(** X6: a filter change and a reset made on the current render are always
    followed by exactly one list request for page 1, even when the merged
    filters equal the old ones or the view was at its defaults already; the
    request of a reset carries the default sort and no filter. *)
Theorem setFilter_resetAll_always_fetch :
  forall (c : View Post) (partial : PartialFilterState) (l : list Request),
    net (exec (setFilter backendUrl c partial) (mkWorld c l))
      = l ++ [Get (listUrl backendUrl)
                  (buildParams c 1 (sortBy c) (spread (filters c) partial))]
    /\ net (exec (resetAll backendUrl c) (mkWorld c l))
      = l ++ [Get (listUrl backendUrl)
                  [("page", "1");
                   ("limit", Js.toString (itemsPerPage (pagination c)));
                   ("sort", "publishDate")]]
    /\ isLoading (view (exec (setFilter backendUrl c partial) (mkWorld c l))) = true
    /\ isLoading (view (exec (resetAll backendUrl c) (mkWorld c l))) = true.
Proof.
  intros c partial l. unfold setFilter, resetAll.
  rewrite !userAction_exec, !useEffect_net, !useEffect_view,
    !handleFilterChange_view, !handleResetAll_view.
  cbn [view net exec isLoading].
  rewrite !depsChanged_fresh_filters by reflexivity.
  repeat split.
Qed.

(** X7: when the current page lies within [1, totalPages] for a positive
    page count, it still does after a sort change, a filter change, a reset
    and any page request made on the current render. *)
Theorem actions_keep_page_in_range :
  forall (c : View Post) (key : string) (partial : PartialFilterState) (n : Z)
         (l : list Request) (v : View Post),
    (0 < totalPages (pagination c) ->
     1 <= currentPage (pagination c) <= totalPages (pagination c)) ->
    v = view (exec (setSort backendUrl c key) (mkWorld c l))
    \/ v = view (exec (setFilter backendUrl c partial) (mkWorld c l))
    \/ v = view (exec (resetAll backendUrl c) (mkWorld c l))
    \/ v = view (exec (setPage backendUrl c n) (mkWorld c l)) ->
    0 < totalPages (pagination v) ->
    1 <= currentPage (pagination v) <= totalPages (pagination v).
Proof.
  intros c key partial n l v Hc Hv.
  unfold setSort, setFilter, resetAll, setPage in Hv.
  rewrite !userAction_exec, !useEffect_view, handleSortChange_view,
    handleFilterChange_view, handleResetAll_view, handlePageChange_view in Hv.
  cbn [view pagination withCurrentPage currentPage totalPages] in Hv.
  destruct Hv as [-> | [-> | [-> | ->]]];
    cbn [pagination withCurrentPage currentPage totalPages]; try lia.
  destruct ((1 <=? n) && (n <=? totalPages (pagination c))) eqn:E;
    cbn [pagination withCurrentPage currentPage totalPages]; [| exact Hc].
  apply andb_true_iff in E. destruct E as [E1 E2].
  apply Z.leb_le in E1. apply Z.leb_le in E2. lia.
Qed.

(** X8: with two fetches in flight, the first response to arrive lowers
    the loading flag although a request is still unanswered, and the posts
    and pagination on screen are those of the response applied last,
    whichever request it answers. *)
Theorem overlapping_fetches :
  forall (c1 c2 : View Post) pg1 pg2 sort1 sort2 cf1 cf2
         (first : GetOutcome Post) psLast pgnLast (w : W),
    let sent := exec (fetchPosts_begin backendUrl c2 pg2 sort2 cf2)
                     (exec (fetchPosts_begin backendUrl c1 pg1 sort1 cf1) w) in
    let one := exec (fetchPosts_end t first) sent in
    let both := exec (fetchPosts_end t (GetOk psLast pgnLast)) one in
    net sent = net w ++ [Get (listUrl backendUrl) (buildParams c1 pg1 sort1 cf1);
                         Get (listUrl backendUrl) (buildParams c2 pg2 sort2 cf2)]
    /\ isLoading (view sent) = true
    /\ isLoading (view one) = false
    /\ net one = net sent
    /\ posts (view both) = psLast
    /\ pagination (view both) = pgnLast.
Proof.
  intros. subst sent one both.
  rewrite fetchPosts_end_ok_view, !fetchPosts_end_net, !fetchPosts_begin_net,
    fetchPosts_begin_view.
  cbn [posts pagination isLoading]. rewrite <- app_assoc.
  repeat split. destruct first; reflexivity.
Qed.

End UserPostsActions.

(** ** The list view: every reachable state *)

Section UserPostsReachable.

Import UserPosts UserPostsScreen.

Variable Post : Type.
Variable User : Type.
Variable t : string -> string.
Variable backendUrl : string.

Let W := World (View Post) Request.

(** A stored error is one of the two the component builds. *)
Lemma deleteError_shape (err : Js.Thrown) :
  details (deleteError t err) = Some (t "error.tryAgain")
  /\ code (deleteError t err) = Some "POST_DELETE_ERROR".
Proof. unfold deleteError. destruct (Js.isAxiosError err); split; reflexivity. Qed.

(** What one step may do to the two error cells: keep the details and keep
    or lower the flag, or raise the flag over a freshly built error. *)
Lemma runOp_error_cells (op : Op Post) (w : W) :
  (errorDetails (view (exec (runOp t backendUrl op) w)) = errorDetails (view w)
   /\ (showErrorModal (view (exec (runOp t backendUrl op) w)) = showErrorModal (view w)
       \/ showErrorModal (view (exec (runOp t backendUrl op) w)) = false))
  \/ (showErrorModal (view (exec (runOp t backendUrl op) w)) = true
      /\ (errorDetails (view (exec (runOp t backendUrl op) w)) = Some (loadError t)
          \/ exists err, errorDetails (view (exec (runOp t backendUrl op) w))
                         = Some (deleteError t err))).
Proof.
  destruct op as [key | partial | | c n | | c | c pg sort cf | o | c postId od o1 o2];
    cbn [runOp].
  - left. split; [| left]; reflexivity.
  - left. split; [| left]; reflexivity.
  - left. split; [| left]; reflexivity.
  - left. rewrite handlePageChange_view.
    destruct ((1 <=? n) && (n <=? totalPages (pagination c)));
      (split; [| left]; reflexivity).
  - left. split; [| right]; reflexivity.
  - left. rewrite useEffect_view. split; [| left]; reflexivity.
  - left. split; [| left]; reflexivity.
  - destruct o.
    + left. split; [| left]; reflexivity.
    + right. split; [| left]; reflexivity.
  - destruct od as [| err].
    + rewrite handleDeletePost_ok_exec. cbv zeta.
      destruct (pageOverflows c);
        [destruct (newTotalPages c) |];
        destruct o1; try destruct o2;
        first [ left; split; [| left]; reflexivity
              | right; split; [| left]; reflexivity ].
    + right. split; [reflexivity |]. right. exists err. reflexivity.
Qed.

Lemma runOps_error_cells (ops : list (Op Post)) :
  forall w : W,
    match errorDetails (view w) with
    | None => showErrorModal (view w) = false
    | Some e => details e = Some (t "error.tryAgain")
                /\ (code e = Some "POSTS_LOAD_ERROR" \/ code e = Some "POST_DELETE_ERROR")
    end ->
    match errorDetails (view (runOps t backendUrl ops w)) with
    | None => showErrorModal (view (runOps t backendUrl ops w)) = false
    | Some e => details e = Some (t "error.tryAgain")
                /\ (code e = Some "POSTS_LOAD_ERROR" \/ code e = Some "POST_DELETE_ERROR")
    end.
Proof.
  induction ops as [| op ops IH]; intros w Hw; [exact Hw |].
  cbn [runOps]. apply IH.
  destruct (runOp_error_cells op w) as [[Hd Hs] | [Hs [Hd | [err Hd]]]].
  - rewrite Hd. destruct (errorDetails (view w)); [exact Hw |].
    destruct Hs as [-> | ->]; [exact Hw | reflexivity].
  - rewrite Hd. split; [reflexivity | left; reflexivity].
  - rewrite Hd. destruct (deleteError_shape err) as [-> ->]. split; [| right]; reflexivity.
Qed.

(** X9: whatever sequence of handlers, fetch halves, effects and deletes
    the mounted view goes through, with whatever closures and outcomes, an
    open error modal always has a stored error behind it, and a stored error
    always carries the retry hint and one of the two codes
    ['POSTS_LOAD_ERROR'] and ['POST_DELETE_ERROR']: the "unknown error" copy
    of the modal never shows. *)
Theorem error_modal_always_backed :
  forall (ops : list (Op Post)),
    let v := view (runOps t backendUrl ops (mounted Post backendUrl)) in
    match errorDetails v with
    | None => showErrorModal v = false /\ activeError t v = None
    | Some e =>
        details e = Some (t "error.tryAgain")
        /\ (code e = Some "POSTS_LOAD_ERROR" \/ code e = Some "POST_DELETE_ERROR")
        /\ modalError t v = e
    end.
Proof.
  intros ops v. subst v.
  pose proof (runOps_error_cells ops (mounted Post backendUrl)) as Hinv.
  specialize (Hinv eq_refl).
  unfold activeError, modalError.
  destruct (errorDetails (view (runOps t backendUrl ops (mounted Post backendUrl))))
    as [e |].
  - destruct Hinv as [Hd Hc]. repeat split; assumption.
  - rewrite Hinv. split; reflexivity.
Qed.

(** X10: nothing is rendered without a user; with one, the body is the
    spinner exactly while the loading flag is up, and otherwise the cards of
    the stored posts with either the "no posts" line (no post) or the pager
    (at least one post), never both and never neither; the error modal is
    rendered in both cases, open as the flag says. *)
Theorem render_body :
  forall (u : User) (v : View Post),
    render t (@None User) v = None
    /\ exists scr,
        render t (Some u) v = Some scr
        /\ modalOpen scr = showErrorModal v
        /\ modalContent scr = modalError t v
        /\ match body scr with
           | Spinner _ => isLoading v = true
           | Listing cards noPosts pager =>
               isLoading v = false
               /\ cards = posts v
               /\ match posts v with
                  | [] => noPosts = true /\ pager = None
                  | _ :: _ =>
                      noPosts = false
                      /\ pager = Some (mkPager (currentPage (pagination v))
                                               (totalPages (pagination v))
                                               (totalItems (pagination v)))
                  end
           end.
Proof.
  intros u v. split; [reflexivity |].
  eexists. split; [reflexivity |]. cbn [modalOpen modalContent body].
  split; [reflexivity |]. split; [reflexivity |].
  destruct (isLoading v); [reflexivity |].
  split; [reflexivity |]. split; [reflexivity |].
  destruct (posts v); split; reflexivity.
Qed.

End UserPostsReachable.

(** ** The password form: inputs and outcomes *)

Section ChangePasswordForm.

Import ChangePasswordPage PasswordInput.

Variable backendUrl : string.
Variable token : option string.

Let W := World View Effect.

(** X11: typing in one input changes the value of that input and of no
    other, and touches neither the error, the loading flag nor the log; two
    inputs typed in from the same render both keep their text, in either
    order, and typing twice in one input keeps the later text. *)
Theorem handleInputChange_fields :
  forall (f g : Field) (x y : string) (w : W),
    value g (formData (view (exec (handleInputChange f x) w)))
      = (if Field_eqb g f then x else value g (formData (view w)))
    /\ exec (handleInputChange g y) (exec (handleInputChange f x) w)
       = (if Field_eqb f g then exec (handleInputChange g y) w
          else exec (handleInputChange f x) (exec (handleInputChange g y) w))
    /\ net (exec (handleInputChange f x) w) = net w
    /\ error (view (exec (handleInputChange f x) w)) = error (view w)
    /\ loading (view (exec (handleInputChange f x) w)) = loading (view w).
Proof.
  intros f g x y [[[o n c] sp e ld mo ms mm] l].
  destruct f, g; repeat split.
Qed.

(** X12: the eye button of a field flips the visibility of that field and
    of no other, so its input switches between [password] and [text]; a
    second click restores the whole state, and the typed passwords are never
    touched. *)
Theorem togglePasswordVisibility_flips :
  forall (f g : Field) (w : W),
    let w' := exec (togglePasswordVisibility f) w in
    shown g (showPasswords (view w'))
      = (if Field_eqb g f then negb (shown g (showPasswords (view w)))
         else shown g (showPasswords (view w)))
    /\ inputType (shown f (showPasswords (view w')))
       <> inputType (shown f (showPasswords (view w)))
    /\ formData (view w') = formData (view w)
    /\ exec (togglePasswordVisibility f) w' = w.
Proof.
  intros f g [[fd [so sn sc] e ld mo ms mm] l].
  destruct f, g; cbn; repeat split;
    try (destruct so; discriminate);
    try (destruct sn; discriminate);
    try (destruct sc; discriminate);
    now rewrite negb_involutive.
Qed.

(** X13: whatever error was shown before, after a submission the inline
    error is the verdict of this submission alone: the mismatch message when
    the two new passwords differ (checked first), else the length message
    when the new password is short, else the reason of the first failure
    among the request and the logout, and nothing when both succeeded. *)
Theorem handleSubmit_error_cell :
  forall (c : View) (post logout : Outcome) (w : W),
    error (view (exec (handleSubmit backendUrl token c post logout) w)) =
    if mismatch c then Some "New passwords do not match"
    else if tooShort c then Some "New password must be at least 6 characters long"
    else match post, logout with
         | Rejected err, _ => Some (errorMessage err)
         | Resolved, Rejected err => Some (errorMessage err)
         | Resolved, Resolved => None
         end.
Proof.
  intros c post logout [[fd sp e ld mo ms mm] l]. unfold handleSubmit.
  destruct (mismatch c); [reflexivity |].
  destruct (tooShort c); [reflexivity |].
  destruct post, logout; reflexivity.
Qed.

(** X14: a submission that passes both checks sends the request with the
    token and the three passwords as typed, and always ends with the loading
    flag down and the modal open; it logs out only after a successful
    request and schedules the move to [/login], 3000 ms later, only after a
    successful logout; the modal reports success only in that last case. *)
Theorem handleSubmit_valid_outcomes :
  forall (c : View) (post logout : Outcome) (w : W),
    mismatch c = false ->
    tooShort c = false ->
    let w' := exec (handleSubmit backendUrl token c post logout) w in
    net w' = net w
             ++ [PreventDefault;
                 Post (changeUrl backendUrl)
                      (mkBody token (oldPassword (formData c))
                              (newPassword (formData c))
                              (confirmPassword (formData c)))]
             ++ match post, logout with
                | Resolved, Resolved => [Logout; SetTimeout "/login" 3000]
                | Resolved, Rejected _ => [Logout]
                | Rejected _, _ => []
                end
    /\ loading (view w') = false
    /\ isModalOpen (view w') = true
    /\ modalStatus (view w')
       = match post, logout with
         | Resolved, Resolved => success
         | _, _ => error_status
         end
    /\ modalMessage (view w')
       = match post, logout with
         | Resolved, Resolved => "Password successfully changed! Redirecting to login..."
         | Resolved, Rejected err => errorMessage err
         | Rejected err, _ => errorMessage err
         end.
Proof.
  intros c post logout [[fd sp e ld mo ms mm] l] Hm Hs w'. subst w'.
  unfold handleSubmit. rewrite Hm, Hs.
  destruct post, logout; cbn; rewrite <- ?app_assoc; repeat split.
Qed.

End ChangePasswordForm.

Section ChangePasswordFormRuns.

Import ChangePasswordPage Scenario.

(** The form filled in well, the request accepted, the logout refused:
    the password is changed, yet the modal reports an error and nothing
    leads to the login page. *)
Lemma handleSubmit_valid_outcomes_run :
  net (exec (handleSubmit api (Some "tok") wellFilled Resolved
                          (Rejected Js.OtherError))
            (mkWorld wellFilled []))
    = [PreventDefault;
       Post (changeUrl api) (mkBody (Some "tok") "old-secret" "new-secret" "new-secret");
       Logout]
  /\ modalStatus (view (exec (handleSubmit api (Some "tok") wellFilled Resolved
                                           (Rejected Js.OtherError))
                             (mkWorld wellFilled [])))
     = error_status.
Proof.
  destruct (handleSubmit_valid_outcomes api (Some "tok") wellFilled Resolved
              (Rejected Js.OtherError) (mkWorld wellFilled []))
    as (Hnet & _ & _ & Hstatus & _); [reflexivity | reflexivity |].
  split; [exact Hnet | exact Hstatus].
Defined.

End ChangePasswordFormRuns.

Section UserPostsActionsRuns.

Import UserPosts Scenario.

(** From page 1 of three, a request for page 2 leaves the page in range. *)
Lemma actions_keep_page_in_range_run :
  1 <= currentPage (pagination (view (exec (setPage api firstOfThree 2)
                                           (mkWorld firstOfThree []))))
    <= totalPages (pagination (view (exec (setPage api firstOfThree 2)
                                          (mkWorld firstOfThree [])))).
Proof.
  apply (actions_keep_page_in_range api firstOfThree "likesCount"
           (mkPartial None None None) 2 []).
  - intros _. cbn. lia.
  - right. right. right. reflexivity.
  - cbn. lia.
Defined.

End UserPostsActionsRuns.

(** ** The date filter *)

Section PostCommentFilterProperties.

Import PostCommentFilter.

Lemma or_else_some_empty (v : string) : Js.or_else (Some v) "" = v.
Proof.
  unfold Js.or_else, Js.truthy.
  destruct (String.eqb_spec v "") as [-> | _]; reflexivity.
Qed.

Lemma or_else_empty_iff (x : option string) :
  Js.truthy (Js.or_else x "") = negb (Js.or_else x "" =? "")%string.
Proof. reflexivity. Qed.

(** X15: the reset button is rendered exactly when one of the two date
    inputs shows a date; filters without an interval and filters whose
    interval holds two empty dates both count as inactive. *)
Theorem resetButton_shown :
  forall (filters : FilterState),
    resetButton filters
      = (if (startValue filters =? "")%string && (endValue filters =? "")%string
         then None else Some OnResetAll)
    /\ resetButton (mkFilterState None) = None
    /\ resetButton (mkFilterState (Some (mkDateInterval "" ""))) = None.
Proof.
  intros [[[s e] |]]; [| repeat split].
  split; [| split; reflexivity].
  unfold resetButton, hasActiveFilters, startValue, endValue, start, finish.
  cbn [option_map dateInterval startDate endDate].
  unfold Js.or_else at 1. rewrite !or_else_some_empty.
  unfold Js.truthy.
  destruct (String.eqb_spec s "") as [-> | Hs]; cbn [negb andb].
  - destruct (e =? "")%string; reflexivity.
  - apply String.eqb_neq in Hs. rewrite Hs. reflexivity.
Qed.

(** X16: changing one date hands the parent an interval with the new date
    and the other date as it was shown (empty when there was no interval
    yet); once the parent has stored the interval of a start change, an end
    change yields the interval of both new dates. *)
Theorem date_changes_keep_other_bound :
  forall (filters : FilterState) (v1 v2 : string),
    startChanged filters v1
      = OnFilterChange (mkFilterState (Some (mkDateInterval v1 (endValue filters))))
    /\ endChanged filters v2
       = OnFilterChange (mkFilterState (Some (mkDateInterval (startValue filters) v2)))
    /\ endChanged (mkFilterState (Some (mkDateInterval v1 (endValue filters)))) v2
       = OnFilterChange (mkFilterState (Some (mkDateInterval v1 v2)))
    /\ startChanged (mkFilterState (Some (mkDateInterval (startValue filters) v2))) v1
       = OnFilterChange (mkFilterState (Some (mkDateInterval v1 v2))).
Proof.
  intros filters v1 v2. repeat split.
  - unfold endChanged, start. cbn [option_map dateInterval startDate].
    now rewrite or_else_some_empty.
  - unfold startChanged, finish. cbn [option_map dateInterval endDate].
    now rewrite or_else_some_empty.
Qed.

End PostCommentFilterProperties.

(** ** The profile page *)

Section ProfilePageProperties.

Import ProfilePage.

Variables User Dto File : Type.
Variable mapDtoToUser : Dto -> User.
Variables user_fullName user_email user_login : User -> string.
Variable backendUrl : string.

Let W := World View (Effect User File).

(** [x || fallback], spelled out on what was caught. *)
Lemma reason_cases (err : Js.Thrown) (fallback : string) :
  reason err fallback =
  match err with
  | Js.AxiosError (Some m) => if (m =? "")%string then fallback else m
  | _ => fallback
  end.
Proof.
  destruct err as [[m |] |]; try reflexivity.
  unfold reason, Js.or_else, Js.truthy. cbn.
  destruct (m =? "")%string; reflexivity.
Qed.

(** X17: saving the profile sends the login and the full name of the form
    and never its email; an accepted update hands the mapped user to the
    parent, leaves edit mode, clears the inline error and opens the success
    modal; a refused one hands nothing over, keeps the mode and the modal as
    they were and shows the reason inline; the typed data is kept and the
    loading flag ends down in both cases. *)
Theorem handleEditSubmit_outcomes :
  forall (c : View) (o : ServiceOutcome Dto) (w : W),
    let w' := exec (handleEditSubmit mapDtoToUser c o) w in
    net w' = net w
             ++ [PreventDefault User File;
                 UpdateProfile User File (login (editData c)) (fullName (editData c))]
             ++ match o with
                | Answered dto => [OnUserUpdate File (mapDtoToUser dto)]
                | Refused _ _ => []
                end
    /\ isLoading (view w') = false
    /\ editData (view w') = editData (view w)
    /\ match o with
       | Answered _ =>
           isEditing (view w') = false /\ error (view w') = None
           /\ isModalOpen (view w') = true /\ modalStatus (view w') = success
           /\ modalMessage (view w') = "Profile updated successfully!"
       | Refused _ err =>
           isEditing (view w') = isEditing (view w)
           /\ error (view w')
              = Some match err with
                     | Js.AxiosError (Some m) =>
                         if (m =? "")%string then "Failed to update profile" else m
                     | _ => "Failed to update profile"
                     end
           /\ isModalOpen (view w') = isModalOpen (view w)
           /\ modalStatus (view w') = modalStatus (view w)
           /\ modalMessage (view w') = modalMessage (view w)
       end.
Proof.
  intros c o [[ed ld d e mo ms mm] l] w'. subst w'.
  destruct o as [dto | err]; cbn; rewrite <- ?app_assoc, <- ?reason_cases;
    repeat split.
Qed.

(** X18: choosing no file does nothing at all.  With a file, the upload is
    the only request; a refused upload opens the error modal with the fixed
    text whatever the response said and puts the reason inline, an accepted
    one opens the success modal and leaves an earlier inline error where it
    was; edit mode and typed data are never touched, and the loading flag
    ends down. *)
Theorem handleImageUpload_outcomes :
  forall (f : File) (o : ServiceOutcome Dto) (w : W),
    let w' := exec (handleImageUpload mapDtoToUser (Some f) o) w in
    exec (handleImageUpload mapDtoToUser None o) w = w
    /\ net w' = net w
                ++ UpdateProfileImage User f
                :: match o with
                   | Answered dto => [OnUserUpdate File (mapDtoToUser dto)]
                   | Refused _ _ => []
                   end
    /\ isLoading (view w') = false
    /\ isEditing (view w') = isEditing (view w)
    /\ editData (view w') = editData (view w)
    /\ isModalOpen (view w') = true
    /\ match o with
       | Answered _ =>
           error (view w') = error (view w)
           /\ modalStatus (view w') = success
           /\ modalMessage (view w') = "Profile image updated successfully!"
       | Refused _ err =>
           error (view w')
             = Some match err with
                    | Js.AxiosError (Some m) =>
                        if (m =? "")%string then "Failed to update profile picture" else m
                    | _ => "Failed to update profile picture"
                    end
           /\ modalStatus (view w') = error_status
           /\ modalMessage (view w') = "Failed to update profile picture"
       end.
Proof.
  intros f o [[ed ld d e mo ms mm] l] w'. subst w'.
  destruct o as [dto | err]; cbn; rewrite <- ?app_assoc, <- ?reason_cases;
    repeat split.
Qed.

Lemma append_same_prefix (p a b : string) :
  (p ++ a)%string = (p ++ b)%string -> a = b.
Proof.
  induction p as [| ch p IH]; cbn; intros E; [exact E |].
  injection E as E. now apply IH.
Qed.

(** X19: the email button and the password button each send one request
    with no body, to two addresses that differ for every back-end address;
    whatever the outcome, the modal ends open and the loading flag down,
    with the status telling success from failure, and neither the inline
    error, the edit mode nor the typed data is touched.  A failure that is
    not an axios error is reported as "Failed to send reset email" by both. *)
Theorem email_and_password_change :
  forall (o : PostOutcome) (w : W),
    let we := exec (@handleEmailChange User File backendUrl o) w in
    let wp := exec (@handlePasswordChange User File backendUrl o) w in
    emailChangeUrl backendUrl <> passwordChangeUrl backendUrl
    /\ net we = net w ++ [PreventDefault User File; Post User File (emailChangeUrl backendUrl)]
    /\ net wp = net w ++ [PreventDefault User File;
                          Post User File (passwordChangeUrl backendUrl)]
    /\ (isLoading (view we) = false /\ isLoading (view wp) = false)
    /\ (isModalOpen (view we) = true /\ isModalOpen (view wp) = true)
    /\ (error (view we) = error (view w) /\ error (view wp) = error (view w))
    /\ (isEditing (view we) = isEditing (view w)
        /\ isEditing (view wp) = isEditing (view w))
    /\ (editData (view we) = editData (view w)
        /\ editData (view wp) = editData (view w))
    /\ match o with
       | Resolved =>
           modalStatus (view we) = success /\ modalStatus (view wp) = success
       | Rejected err =>
           modalStatus (view we) = error_status
           /\ modalStatus (view wp) = error_status
           /\ modalMessage (view we)
              = match err with
                | Js.AxiosError (Some m) =>
                    if (m =? "")%string then "Failed to send change email message" else m
                | Js.AxiosError None => "Failed to send change email message"
                | Js.OtherError => "Failed to send reset email"
                end
           /\ modalMessage (view wp)
              = match err with
                | Js.AxiosError (Some m) =>
                    if (m =? "")%string then "Failed to send reset email" else m
                | _ => "Failed to send reset email"
                end
       end.
Proof.
  intros o [[ed ld d e mo ms mm] l] we wp. subst we wp. split.
  - intros E. apply append_same_prefix in E. discriminate E.
  - destruct o as [| [[m |] |]]; cbn; rewrite <- ?app_assoc; repeat split;
      unfold reason, Js.or_else, Js.truthy; cbn;
      destruct (m =? "")%string; reflexivity.
Qed.

(** X20: the two inputs of the edit form rebuild the data from the render
    that created them: typing in both from one render keeps the later text
    only and puts the other field back to what that render showed, while
    typing in the second after a new render keeps both.  Cancelling puts the
    user's own name, email and login back, leaves edit mode and clears the
    inline error, whatever was typed. *)
Theorem edit_inputs_and_cancel :
  forall (c : View) (x y : string) (u : User) (w : W),
    let w1 := exec (@loginInput User File c x) w in
    editData (view (exec (@fullNameInput User File c y) w1))
      = mkEdit y (email (editData c)) (login (editData c))
    /\ editData (view (exec (@fullNameInput User File (view w1) y) w1))
       = mkEdit y (email (editData c)) x
    /\ view (exec (@cancelEditing User File user_fullName user_email user_login u)
                  (exec (@fullNameInput User File (view w1) y) w1))
       = mkView false (isLoading (view w))
                (mkEdit (user_fullName u) (user_email u) (user_login u))
                None (isModalOpen (view w)) (modalStatus (view w))
                (modalMessage (view w)).
Proof.
  intros c x y u [[ed ld d e mo ms mm] l] w1. subst w1. repeat split.
Qed.

End ProfilePageProperties.

(** ** The admin tab bar *)

Section AdminTabsProperties.

Import AdminDashboard AdminTabs.

Variable t : string -> string.

(** X21: the bar has one button per tab, in the order posts, comments,
    categories; whichever tab is active, exactly one button is marked
    [aria-current], the one of the active tab, and clicking a button makes
    its own tab the marked one. *)
Theorem tabBar_current :
  forall (activeTab : ActiveTab),
    map onClick (tabBar t activeTab) = [posts; comments; categories]
    /\ map onClick (filter isCurrent (tabBar t activeTab)) = [activeTab]
    /\ forall b, In b (tabBar t activeTab) ->
         map onClick (filter isCurrent (tabBar t (onClick b))) = [id (tab b)].
Proof.
  intros activeTab. split; [reflexivity |]. split.
  - destruct activeTab; reflexivity.
  - intros b Hb. destruct activeTab; cbn in Hb;
      destruct Hb as [<- | [<- | [<- | []]]]; reflexivity.
Qed.

End AdminTabsProperties.

Section AdminTabsRuns.

Import AdminDashboard AdminTabs Scenario.

(** With the posts tab active, the comments button is in the bar, and a
    click on it marks the comments tab. *)
Lemma tabBar_current_run :
  map onClick (filter isCurrent (tabBar keys comments)) = [comments].
Proof.
  destruct (tabBar_current keys posts) as (_ & _ & Hclick).
  apply (Hclick (button posts (mkTab comments (keys "admin.tabs.comments")))).
  right. left. reflexivity.
Defined.

End AdminTabsRuns.

(** ** The list view: merging filters *)

Section FilterMerge.

Import UserPosts.

Variable Post : Type.

(** X22: a filter change replaces the keys its argument carries, whole
    (a new date interval is not merged into the old one, and a key carried
    with no value removes that filter), and keeps the others; an argument
    without keys changes no filter, applying the same argument twice is
    applying it once, and two changes in a row amount to one change whose
    argument takes each key from the second where it has it and from the
    first otherwise. *)
Theorem handleFilterChange_merges :
  forall (p q : PartialFilterState) (w : World (View Post) Request),
    let after r w := filters (view (exec (@handleFilterChange Post r) w)) in
    after p w
      = mkFilterState
          (match p_dateInterval p with Some x => x | None => dateInterval (filters (view w)) end)
          (match p_searchQuery p with Some x => x | None => searchQuery (filters (view w)) end)
          (match p_categoryIds p with Some x => x | None => categoryIds (filters (view w)) end)
    /\ after (mkPartial None None None) w = filters (view w)
    /\ after p (exec (@handleFilterChange Post p) w) = after p w
    /\ after q (exec (@handleFilterChange Post p) w)
       = after (mkPartial
                  (match p_dateInterval q with Some x => Some x | None => p_dateInterval p end)
                  (match p_searchQuery q with Some x => Some x | None => p_searchQuery p end)
                  (match p_categoryIds q with Some x => Some x | None => p_categoryIds p end))
               w.
Proof.
  intros [pd ps pc] [qd qs qc] [[pl ld sm e pgn s [d sq ids] r] l] after.
  subst after. cbv beta.
  rewrite !handleFilterChange_view. cbn.
  repeat split.
  - destruct pd, ps, pc; reflexivity.
  - destruct qd, qs, qc, pd, ps, pc; reflexivity.
Qed.

End FilterMerge.

Section ProfilePageRuns.

Import ProfilePage Runs.

Example taken_login_stays_in_edit_mode :
  view (exec (@handleEditSubmit Profile Profile unit (fun dto => dto) editing
                (Refused Profile (Js.AxiosError (Some "Login already taken"))))
             (mkWorld editing []))
  = mkView true false (mkEdit "Ada Lovelace" "ada@example.org" "ada")
           (Some "Login already taken") false success "".
Proof. reflexivity. Qed.

Example saved_profile_reaches_parent :
  net (exec (@handleEditSubmit Profile Profile unit (fun dto => dto) editing
               (Answered ada))
            (mkWorld editing []))
  = [PreventDefault Profile unit; UpdateProfile Profile unit "ada" "Ada Lovelace";
     OnUserUpdate unit ada].
Proof. reflexivity. Qed.

Example network_failure_on_email_change :
  modalMessage (view (exec (@handleEmailChange Profile unit Scenario.api
                              (Rejected Js.OtherError))
                           (mkWorld editing [])))
  = "Failed to send reset email".
Proof. reflexivity. Qed.

End ProfilePageRuns.

(** ** The list view: the effect after a delete *)

Section DeleteThenEffect.

Import UserPosts.

Variable Post : Type.
Variable t : string -> string.
Variable backendUrl : string.

Let W := World (View Post) Request.

(** The handler changes neither the sort key nor the filters. *)
Lemma handleDeletePost_ok_keeps_query (c : View Post) postId o1 o2 (w : W) :
  sortBy (view (exec (handleDeletePost t backendUrl c postId DeleteOk o1 o2) w))
    = sortBy (view w)
  /\ filters (view (exec (handleDeletePost t backendUrl c postId DeleteOk o1 o2) w))
     = filters (view w)
  /\ filtersRef (view (exec (handleDeletePost t backendUrl c postId DeleteOk o1 o2) w))
     = filtersRef (view w).
Proof.
  rewrite handleDeletePost_ok_exec. cbv zeta.
  destruct (pageOverflows c); [destruct (newTotalPages c) |];
    destruct o1; try destruct o2; repeat split.
Qed.

(** The current page it leaves is the one of its last successful response. *)
Lemma handleDeletePost_ok_page (c : View Post) postId o1 o2 (w : W) :
  currentPage (pagination (view (exec (handleDeletePost t backendUrl c postId
                                         DeleteOk o1 o2) w)))
  = let first := match o1 with
                 | GetOk _ pg1 => currentPage pg1
                 | GetFail _ _ => currentPage (pagination (view w))
                 end in
    if pageOverflows c
    then match o2 with
         | GetOk _ pg2 => currentPage pg2
         | GetFail _ _ => first
         end
    else first.
Proof.
  rewrite handleDeletePost_ok_exec, pageOverflows_spec. cbv zeta.
  destruct (newTotalPages c) as [n | | |];
    [destruct ((n <? currentPage (pagination c)) && (0 <? n)) |..];
    destruct o1; try destruct o2; reflexivity.
Qed.

(** X23: take a successful delete whose first list response leaves the
    current page where it was (or fails).  When the effect compares the view
    the handler left with the render that started the delete, it sends one
    more list request exactly when the handler's second response stored
    another current page, and that request asks for the stored page; it
    sends nothing when no second request was made, when the second one
    failed, or when its response stored the same page. *)
Theorem delete_then_effect :
  forall (c : View Post) (postId : Z) (o1 o2 : GetOutcome Post) (l : list Request),
    match o1 with
    | GetOk _ pg1 => currentPage pg1 = currentPage (pagination c)
    | GetFail _ _ => True
    end ->
    let w1 := exec (handleDeletePost t backendUrl c postId DeleteOk o1 o2) (mkWorld c l) in
    let stored := currentPage (pagination (view w1)) in
    stored = (if pageOverflows c
              then match o2 with
                   | GetOk _ pg2 => currentPage pg2
                   | GetFail _ _ => currentPage (pagination c)
                   end
              else currentPage (pagination c))
    /\ net (exec (useEffect backendUrl c) w1)
       = net w1 ++ (if stored =? currentPage (pagination c) then []
                    else [Get (listUrl backendUrl)
                              (buildParams (view w1) stored (sortBy c) (filters c))]).
Proof.
  intros c postId o1 o2 l H1 w1 stored. subst stored w1.
  destruct (handleDeletePost_ok_keeps_query c postId o1 o2 (mkWorld c l))
    as (Hsort & Hfilters & Href).
  cbn [view] in Hsort, Hfilters, Href.
  split.
  - rewrite handleDeletePost_ok_page. cbv zeta. cbn [view].
    destruct o1 as [ps1 pg1 | err1]; [rewrite H1 |]; reflexivity.
  - rewrite useEffect_net. unfold depsChanged.
    rewrite Hsort, Hfilters, Href, String.eqb_refl, Nat.eqb_refl, !andb_true_r.
    rewrite (Z.eqb_sym (currentPage (pagination c))).
    destruct (currentPage
                (pagination
                   (view (exec (handleDeletePost t backendUrl c postId DeleteOk o1 o2)
                               (mkWorld c l)))) =? currentPage (pagination c));
      reflexivity.
Qed.

End DeleteThenEffect.

Section DeleteThenEffectRuns.

Import UserPosts Scenario.

(** Page 2 of seven posts: the handler asks for page 2 and page 1, the
    response for page 1 moves the view to page 1, and the effect asks for
    page 1 once more. *)
Lemma delete_then_effect_run :
  map requestedPage
      (fetches (net (exec (useEffect api lastPostAlone)
                          (exec (handleDeletePost keys api lastPostAlone 7 DeleteOk
                                   (GetOk [] (mkPagination 2 1 6 6))
                                   (GetOk [1; 2; 3; 4; 5; 6] (mkPagination 1 1 6 6)))
                                (mkWorld lastPostAlone [])))))
  = [Some "2"; Some "1"; Some "1"].
Proof.
  destruct (delete_then_effect keys api lastPostAlone 7
              (GetOk [] (mkPagination 2 1 6 6))
              (GetOk [1; 2; 3; 4; 5; 6] (mkPagination 1 1 6 6)) [])
    as [_ Hnet]; [reflexivity |].
  rewrite Hnet. reflexivity.
Defined.

End DeleteThenEffectRuns.
